(** * CH9329Controller: the serial protocol engine of the CH9329 HID chip

    A shallow embedding of [src/CH9329Controller.cpp] and of the
    declarations of [ch9329/CH9329Controller.hpp], followed by the
    properties of the frame codec, the command dispatcher, the command
    catalog and the coordinate mapper.

    Conventions of the embedding:
    - [uint8_t] is [byte] (256 values), [std::vector<uint8_t>] is
      [list byte]; the integer promotion of a byte is [byte.unsigned];
    - wider integers are [Z] with their wrap-around written out
      ([uint16], [uint32], [int32]);
    - the serial port is an explicit state threaded through the [IO]
      monad; [std::optional] is [option]. *)

From Stdlib Require Import ZArith List Bool Lia Permutation.
From Stdlib Require Import Init.Byte.
From coqutil Require Import Byte.
Import ListNotations.
Local Open Scope Z_scope.

(** ** Fixed-width integers *)

(** [static_cast<uint8_t>(z)]: reduction modulo 2^8. *)
Definition uint8 (z : Z) : byte := byte.of_Z z.

(** [static_cast<uint16_t>(z)] and [static_cast<uint32_t>(z)]. *)
Definition uint16 (z : Z) : Z := z mod 2 ^ 16.
Definition uint32 (z : Z) : Z := z mod 2 ^ 32.

(** The value an [int] computation has on a two's complement machine. *)
Definition int32 (z : Z) : Z := (z + 2 ^ 31) mod 2 ^ 32 - 2 ^ 31.

(** Integer promotion of a [uint8_t] operand. *)
Notation "'#' b" := (byte.unsigned b) (at level 9, b at level 9, format "'#' b").

(** [a != b] on two [uint8_t] operands (both promoted to [int]). *)
Definition ne8 (a b : byte) : bool := negb (#a =? #b).

(** ** Vectors of bytes *)

(** [v[i]] for an index the caller has checked to be in range. *)
Definition at_ (v : list byte) (i : nat) : byte := nth i v x00.

(** [v.back()]. *)
Definition back (v : list byte) : byte := last v x00.

(** [v.empty()]. *)
Definition empty (v : list byte) : bool :=
  match v with [] => true | _ :: _ => false end.

(** [v.size()]. *)
Definition size (v : list byte) : Z := Z.of_nat (length v).

(** [std::accumulate(first, last, 0)]: the initial value [0] is an [int],
    so every partial sum is an [int]. *)
Definition accumulate (range : list byte) (init : Z) : Z :=
  fold_left (fun acc b => int32 (acc + #b)) range init.

(** ** Protocol constants *)

Definition FRAME_HEAD_1 : byte := x57.
Definition FRAME_HEAD_2 : byte := xab.
Definition DEVICE_ADDR : byte := x00.

(** ** Frame codec *)

Definition make_frame (addr cmd : byte) (data : list byte) : list byte :=
  let frame := [FRAME_HEAD_1; FRAME_HEAD_2; addr; cmd; uint8 (size data)] ++ data in
  let sum := uint8 (accumulate frame 0) in
  frame ++ [sum].

Definition validate_response (resp : list byte) (expected_cmd : byte)
  : option (list byte) :=
  if size resp <? 6 then None
  else if ne8 (at_ resp 0) FRAME_HEAD_1 || ne8 (at_ resp 1) FRAME_HEAD_2 then None
  else if ne8 (at_ resp 2) DEVICE_ADDR then None
  else
    let rcv_cmd := at_ resp 3 in
    if negb (Z.land #rcv_cmd 0x3F =? #expected_cmd) then None
    else
      let len := at_ resp 4 in
      if negb (size resp =? 6 + #len) then None
      else
        let sum := uint8 (accumulate (removelast resp) 0) in
        if ne8 (back resp) sum then None
        else Some (removelast (skipn 5 resp)).

(** ** The serial port

    The transport is outside the protocol engine; the engine only hands
    buffers to [asio::write] and calls [read_some] on a 128-byte buffer.
    A port state records every buffer handed to [asio::write] and holds
    the outcomes the environment has in store for the coming calls. *)

Inductive ReadOutcome : Type :=
| ReadFailed                      (* [read_some] sets the error code *)
| Received (bytes : list byte).   (* bytes ready at the serial line *)

Record Port : Type := mkPort {
  written : list (list byte);     (* buffers handed to [asio::write], oldest first *)
  write_errors : list bool;       (* error code of each coming write; none left: no error *)
  incoming : list ReadOutcome     (* outcome of each coming read; none left: error *)
}.

Definition IO (A : Type) : Type := Port -> A * Port.

Definition ret {A} (a : A) : IO A := fun p => (a, p).

Definition bind {A B} (c : IO A) (k : A -> IO B) : IO B :=
  fun p => let (a, p') := c p in k a p'.

Notation "x <- c ;; k" := (bind c (fun x => k))
  (at level 61, c at next level, right associativity).
Notation "c ;;; k" := (bind c (fun _ => k))
  (at level 61, right associativity).

(** [asio::write(port_, asio::buffer(buf), ec)]; the result is [ec]. *)
Definition asio_write (buf : list byte) : IO bool := fun p =>
  match write_errors p with
  | [] => (false, mkPort (written p ++ [buf]) [] (incoming p))
  | ec :: rest => (ec, mkPort (written p ++ [buf]) rest (incoming p))
  end.

(** [port_.read_some(asio::buffer(buffer), ec)] on a buffer of [capacity]
    bytes; the result is [ec] and the bytes stored in the buffer. Bytes
    that do not fit stay on the line for the next read. *)
Definition read_some (capacity : nat) : IO (bool * list byte) := fun p =>
  match incoming p with
  | [] => ((true, []), p)
  | ReadFailed :: rest => ((true, []), mkPort (written p) (write_errors p) rest)
  | Received bytes :: rest =>
      let rest :=
        match skipn capacity bytes with
        | [] => rest
        | later => Received later :: rest
        end in
      ((false, firstn capacity bytes), mkPort (written p) (write_errors p) rest)
  end.

(** [std::this_thread::sleep_for]: time is not part of the state. *)
Definition sleep_for (ms : Z) : IO unit := ret tt.

(** ** Command dispatcher *)

Definition read_response : IO (option (list byte)) :=
  r <- read_some 128 ;;
  let (ec, buffer) := r : bool * list byte in
  let len := size buffer in
  if ec || (len <? 6) then ret None
  else ret (Some buffer).

Definition send_command (cmd : byte) (data : list byte) : IO (option (list byte)) :=
  let frame := make_frame DEVICE_ADDR cmd data in
  ec <- asio_write frame ;;
  if ec : bool then ret None
  else
    sleep_for 10 ;;;
    resp <- read_response ;;
    match resp with
    | None => ret None
    | Some resp =>
        let payload := validate_response resp cmd in
        match payload with
        | None => ret None
        | Some payload => if empty payload then ret None else ret (Some payload)
        end
    end.

(** ** Enumerations and structures of the header

    A scoped enumeration with underlying type [uint8_t] holds any value
    of that type (the control keys are documented as bitwise
    combinations), so each is a [byte] with named enumerators. *)

Definition KeyboardCtrlKey : Type := byte.
Definition LeftCtrl : KeyboardCtrlKey := x01.
Definition LeftShift : KeyboardCtrlKey := x02.
Definition LeftAlt : KeyboardCtrlKey := x04.
Definition LeftWin : KeyboardCtrlKey := x08.
Definition RightCtrl : KeyboardCtrlKey := x10.
Definition RightShift : KeyboardCtrlKey := x20.
Definition RightAlt : KeyboardCtrlKey := x40.
Definition RightWin : KeyboardCtrlKey := x80.

Definition MouseButton : Type := byte.
Definition MouseButton_None : MouseButton := x00.
Definition Left : MouseButton := x01.
Definition Right : MouseButton := x02.
Definition Middle : MouseButton := x04.

Definition UsbStringType : Type := byte.
Definition Manufacturer : UsbStringType := x00.
Definition Product : UsbStringType := x01.
Definition SerialNumber : UsbStringType := x02.

Definition CommandStatus : Type := byte.
Definition Success : CommandStatus := x00.
Definition Timeout_ : CommandStatus := xe1.   (* [CommandStatus::Timeout] *)
Definition HeadError : CommandStatus := xe2.
Definition CmdError : CommandStatus := xe3.
Definition ChecksumError : CommandStatus := xe4.
Definition ParameterError : CommandStatus := xe5.
Definition OperationFailed : CommandStatus := xe6.

Record DeviceInfo : Type := mkDeviceInfo {
  version_major : byte;
  version_minor : byte;
  usb_connected : bool;
  num_lock : bool;
  caps_lock : bool;
  scroll_lock : bool;
  pc_sleeping : bool
}.

(** [std::string] as its sequence of characters. *)
Record UsbStringDescriptor : Type := mkUsbStringDescriptor {
  content : list byte
}.

(** [std::array<uint8_t, 50>]; [get_para_config] only builds it from
    exactly 50 bytes. *)
Record ParaConfig : Type := mkParaConfig {
  raw_bytes : list byte
}.

(** [std::array<uint8_t, 6>]. *)
Record KeyArray : Type := mkKeyArray {
  key0 : byte; key1 : byte; key2 : byte; key3 : byte; key4 : byte; key5 : byte
}.

Definition keys_to_list (keys : KeyArray) : list byte :=
  [key0 keys; key1 keys; key2 keys; key3 keys; key4 keys; key5 keys].

Definition pack_mouse_button (b : MouseButton) : byte := b.
Definition pack_keyboard_ctrl_key (k : KeyboardCtrlKey) : byte := k.

(** [data[i] = x] for an index in range. *)
Fixpoint store (data : list byte) (i : nat) (x : byte) : list byte :=
  match data, i with
  | [], _ => []
  | _ :: rest, O => x :: rest
  | b :: rest, S j => b :: store rest j x
  end.

(** [std::ranges::copy(src, data.begin() + pos)] for a range that fits. *)
Definition copy_at (src data : list byte) (pos : nat) : list byte :=
  firstn pos data ++ src ++ skipn (pos + length src) data.

(** [r.has_value() && !r->empty() && r->at(0) == Success], the return
    expression of every command that changes the device. *)
Definition is_success (r : option (list byte)) : bool :=
  match r with
  | None => false
  | Some v => negb (empty v) && (#(at_ v 0) =? #Success)
  end.

(** ** Command catalog

    [uint16_t] arguments are integers in [0, 65535] and [int8_t]
    arguments integers in [-128, 127]. *)

Definition get_info : IO (option DeviceInfo) :=
  response <- send_command x01 [] ;;
  match response with
  | None => ret None
  | Some response =>
      if size response <? 8 then ret None
      else
        let version := at_ response 0 in
        (* [(version >> 4) & 0x0F - 2]: binary minus binds tighter than [&] *)
        let major := uint8 (Z.land (Z.shiftr #version 4) (0x0F - 2)) in
        let minor := uint8 (Z.land #version 0x0F) in
        let led_status := at_ response 2 in
        ret (Some {|
          version_major := major;
          version_minor := minor;
          usb_connected := #(at_ response 1) =? 0x01;
          num_lock := negb (Z.land #led_status 0x01 =? 0);
          caps_lock := negb (Z.land #led_status 0x02 =? 0);
          scroll_lock := negb (Z.land #led_status 0x04 =? 0);
          pc_sleeping := #(at_ response 3) =? 0x03
        |})
  end.

Definition send_ms_rel_data (button : MouseButton) (x_delta y_delta wheel : Z)
  : IO bool :=
  let data := [x01; pack_mouse_button button;
               uint8 x_delta; uint8 y_delta; uint8 wheel] in
  r <- send_command x05 data ;;
  ret (is_success r).

Definition send_kb_general_data (ctrl : KeyboardCtrlKey) (keys : KeyArray)
  : IO bool :=
  let data := repeat x00 8 in
  let data := store data 0 (pack_keyboard_ctrl_key ctrl) in
  let data := store data 1 x00 in
  let data := copy_at (keys_to_list keys) data 2 in
  r <- send_command x02 data ;;
  ret (is_success r).

Definition send_ms_abs_data (button : MouseButton) (x y wheel : Z) : IO bool :=
  let data := repeat x00 7 in
  let data := store data 0 x02 in
  let data := store data 1 (pack_mouse_button button) in
  let data := store data 2 (uint8 (Z.land x 0xFF)) in
  let data := store data 3 (uint8 (Z.land (Z.shiftr x 8) 0xFF)) in
  let data := store data 4 (uint8 (Z.land y 0xFF)) in
  let data := store data 5 (uint8 (Z.land (Z.shiftr y 8) 0xFF)) in
  let data := store data 6 (uint8 wheel) in
  r <- send_command x04 data ;;
  ret (is_success r).

Definition read_hid_data : IO (option (list byte)) := read_response.

Definition get_usb_string (type : UsbStringType) : IO (option UsbStringDescriptor) :=
  resp <- send_command x0a [type] ;;
  match resp with
  | None => ret None
  | Some resp => ret (Some {| content := resp |})
  end.

Definition set_usb_string (type : UsbStringType) (str : list byte) : IO bool :=
  let data := [type; uint8 (size str)] in
  let data := data ++ str in
  r <- send_command x0b data ;;
  ret (is_success r).

Definition send_kb_media_data (report_id : byte) (keycode : Z) : IO bool :=
  let data := [report_id; uint8 (Z.land keycode 0xFF);
               uint8 (Z.land (Z.shiftr keycode 8) 0xFF)] in
  r <- send_command x03 data ;;
  ret (is_success r).

Definition send_hid_data (data : list byte) : IO bool :=
  if 64 <? size data then ret false
  else
    r <- send_command x06 data ;;
    ret (is_success r).

Definition get_para_config : IO (option ParaConfig) :=
  resp <- send_command x08 [] ;;
  match resp with
  | None => ret None
  | Some resp =>
      if negb (size resp =? 50) then ret None
      else ret (Some {| raw_bytes := resp |})
  end.

Definition set_para_config (config : ParaConfig) : IO bool :=
  r <- send_command x09 (raw_bytes config) ;;
  ret (is_success r).

Definition set_default_config : IO bool :=
  r <- send_command x0c [] ;;
  ret (is_success r).

Definition reset : IO bool :=
  r <- send_command x0f [] ;;
  ret (is_success r).

(** ** Mouse gestures *)

Definition mouse_down (button : MouseButton) : IO bool :=
  let data := [x01; pack_mouse_button button; x00; x00; x00] in
  r <- send_command x05 data ;;
  ret (is_success r).

Definition mouse_up (button : MouseButton) : IO bool :=
  let data := [x01; x00; x00; x00; x00] in
  r <- send_command x05 data ;;
  ret (is_success r).

Definition click (button : MouseButton) (hold_time_ms : Z) : IO bool :=
  down <- mouse_down button ;;
  if negb down then ret false
  else
    sleep_for hold_time_ms ;;;
    mouse_up button.

Definition move_mouse (x_delta y_delta : Z) : IO bool :=
  let data := [x01; x00; uint8 x_delta; uint8 y_delta; x00] in
  r <- send_command x05 data ;;
  ret (is_success r).

Definition scroll_wheel (wheel_delta : Z) : IO bool :=
  let data := [x01; x00; x00; x00; uint8 wheel_delta] in
  r <- send_command x05 data ;;
  ret (is_success r).

Definition move_to_absolute (x y : Z) : IO bool :=
  let x := Z.min x (uint16 4095) in
  let y := Z.min y (uint16 4095) in
  let data := repeat x00 7 in
  let data := store data 0 x02 in
  let data := store data 1 x00 in
  let data := store data 2 (uint8 (Z.land x 0xFF)) in
  let data := store data 3 (uint8 (Z.land (Z.shiftr x 8) 0xFF)) in
  let data := store data 4 (uint8 (Z.land y 0xFF)) in
  let data := store data 5 (uint8 (Z.land (Z.shiftr y 8) 0xFF)) in
  let data := store data 6 x00 in
  r <- send_command x04 data ;;
  ret (is_success r).

Definition double_click (button : MouseButton) (click_interval_ms hold_time_ms : Z)
  : IO bool :=
  first <- click button hold_time_ms ;;
  if negb first then ret false
  else
    sleep_for click_interval_ms ;;;
    click button hold_time_ms.

Definition drag (button : MouseButton) (x_delta y_delta hold_time_ms : Z) : IO bool :=
  down <- mouse_down button ;;
  if negb down then ret false
  else
    sleep_for hold_time_ms ;;;
    moved <- move_mouse x_delta y_delta ;;
    if negb moved then ret false
    else
      sleep_for hold_time_ms ;;;
      mouse_up button.

Definition click_at_absolute (x y : Z) (button : MouseButton) (hold_time_ms : Z)
  : IO bool :=
  moved <- move_to_absolute x y ;;
  if negb moved then ret false
  else
    sleep_for 10 ;;;
    click button hold_time_ms.

Definition drag_absolute (start_x start_y end_x end_y : Z) (button : MouseButton)
  : IO bool :=
  at_start <- move_to_absolute start_x start_y ;;
  if negb at_start then ret false
  else
    down <- mouse_down button ;;
    if negb down then ret false
    else
      sleep_for 50 ;;;
      at_end <- move_to_absolute end_x end_y ;;
      if negb at_end then ret false
      else
        sleep_for 50 ;;;
        mouse_up button.

Definition hover (duration_ms : Z) : IO bool :=
  let data := [x01; x00; x00; x00; x00] in
  r <- send_command x05 data ;;
  if negb (is_success r) then ret false
  else
    sleep_for duration_ms ;;;
    ret true.

(** [click(MouseButton::Right)] takes the default hold time of 50 ms. *)
Definition right_click_menu (wait_time_ms : Z) : IO bool :=
  clicked <- click Right 50 ;;
  if negb clicked then ret false
  else
    sleep_for wait_time_ms ;;;
    ret true.

Definition drag_select (x1 y1 x2 y2 : Z) : IO bool :=
  drag_absolute x1 y1 x2 y2 Left.

(** ** Coordinate mapper

    A zero width or height makes the division undefined; the embedding
    returns [None] there. *)

Definition convert_screen_to_absolute
  (screen_x screen_y screen_width screen_height : Z) : option (Z * Z) :=
  if (screen_width =? 0) || (screen_height =? 0) then None
  else
    let abs_x := uint16 (uint32 (uint32 screen_x * 4095) / screen_width) in
    let abs_y := uint16 (uint32 (uint32 screen_y * 4095) / screen_height) in
    let abs_x := Z.min abs_x (uint16 4095) in
    let abs_y := Z.min abs_y (uint16 4095) in
    Some (abs_x, abs_y).

(** ** Vocabulary of the specification *)

(** The mathematical sum of the promoted bytes of a vector. *)
Definition byte_sum (l : list byte) : Z :=
  fold_right (fun b s => #b + s) 0 l.

(** The error kinds the specification gives to a rejected response. *)
Inductive ProtocolError : Type :=
| Truncated | BadHeader | BadAddress
| CommandMismatch | LengthMismatch | ChecksumMismatch.

(** The specification's reading of response validation, step by step:
    the same checks in the same order, each failure with its own kind. *)
Definition spec_validate_response (raw_bytes : list byte) (expected_command : byte)
  : ProtocolError + list byte :=
  match raw_bytes with
  | head1 :: head2 :: address :: command :: len :: rest =>
      if (length rest <? 1)%nat then inl Truncated
      else if negb ((#head1 =? 0x57) && (#head2 =? 0xAB)) then inl BadHeader
      else if negb (#address =? 0x00) then inl BadAddress
      else if negb (#command mod 64 =? #expected_command) then inl CommandMismatch
      else if negb (Z.of_nat (length raw_bytes) =? 6 + #len) then inl LengthMismatch
      else if negb (#(last rest x00) =? byte_sum (removelast raw_bytes) mod 256)
           then inl ChecksumMismatch
      else inr (removelast rest)
  | _ => inl Truncated
  end.

(** The kind the specification expects when byte [i] of a frame built
    for [cmd] is overwritten with [v]. *)
Definition mutation_kind (cmd : byte) (i : nat) (v : byte) : ProtocolError :=
  match i with
  | 0%nat | 1%nat => BadHeader
  | 2%nat => BadAddress
  | 3%nat => if Z.land #v 0x3F =? #cmd then ChecksumMismatch else CommandMismatch
  | 4%nat => LengthMismatch
  | _ => ChecksumMismatch
  end.

(** The value of a byte read as an [int8_t]. *)
Definition int8 (b : byte) : Z := if #b <? 128 then #b else #b - 256.

(** The absolute mouse report as the specification words it: report id
    0x02, buttons, X and Y clamped to 4095 in little-endian order,
    wheel. *)
Definition spec_abs_report (button : byte) (x y wheel : Z) : list byte :=
  let cx := Z.min x 4095 in
  let cy := Z.min y 4095 in
  [x02; button; uint8 (cx mod 256); uint8 (cx / 256);
   uint8 (cy mod 256); uint8 (cy / 256); uint8 wheel].

(** The commands of the catalog that change the device, with their
    arguments. *)
Inductive MutatingCommand : Type :=
| KeyboardReport (ctrl : KeyboardCtrlKey) (keys : KeyArray)
| MediaKey (report_id : byte) (keycode : Z)
| AbsoluteMouse (button : MouseButton) (x y wheel : Z)
| RelativeMouse (button : MouseButton) (x_delta y_delta wheel : Z)
| CustomHid (data : list byte)
| SetUsbString (type : UsbStringType) (str : list byte)
| SetParameterBlock (config : ParaConfig)
| RestoreDefaults
| SoftwareReset.

(** The member function that carries out a command. *)
Definition run (c : MutatingCommand) : IO bool :=
  match c with
  | KeyboardReport ctrl keys => send_kb_general_data ctrl keys
  | MediaKey report_id keycode => send_kb_media_data report_id keycode
  | AbsoluteMouse button x y wheel => send_ms_abs_data button x y wheel
  | RelativeMouse button x_delta y_delta wheel =>
      send_ms_rel_data button x_delta y_delta wheel
  | CustomHid data => send_hid_data data
  | SetUsbString type str => set_usb_string type str
  | SetParameterBlock config => set_para_config config
  | RestoreDefaults => set_default_config
  | SoftwareReset => reset
  end.

(** The opcode and payload of the one exchange a command makes with the
    device, as the catalog lays them out; [None] when the command is
    refused before any exchange. *)
Definition request (c : MutatingCommand) : option (byte * list byte) :=
  match c with
  | KeyboardReport ctrl keys =>
      Some (x02, [ctrl; x00; key0 keys; key1 keys; key2 keys;
                  key3 keys; key4 keys; key5 keys])
  | MediaKey report_id keycode =>
      Some (x03, [report_id; uint8 (Z.land keycode 0xFF);
                  uint8 (Z.land (Z.shiftr keycode 8) 0xFF)])
  | AbsoluteMouse button x y wheel =>
      Some (x04, [x02; button; uint8 (Z.land x 0xFF); uint8 (Z.land (Z.shiftr x 8) 0xFF);
                  uint8 (Z.land y 0xFF); uint8 (Z.land (Z.shiftr y 8) 0xFF); uint8 wheel])
  | RelativeMouse button x_delta y_delta wheel =>
      Some (x05, [x01; button; uint8 x_delta; uint8 y_delta; uint8 wheel])
  | CustomHid data =>
      if (length data <=? 64)%nat then Some (x06, data) else None
  | SetUsbString type str => Some (x0b, type :: uint8 (size str) :: str)
  | SetParameterBlock config => Some (x09, raw_bytes config)
  | RestoreDefaults => Some (x0c, [])
  | SoftwareReset => Some (x0f, [])
  end.

(** One axis of [convert_screen_to_absolute]: scale, cut to 16 bits,
    clamp. *)
Definition axis (pos extent : Z) : Z :=
  Z.min (uint16 (uint32 (uint32 pos * 4095) / extent)) (uint16 4095).

(** The frame of a relative mouse report and of an absolute one. *)
Definition rel_frame (button : byte) (x_delta y_delta wheel : Z) : list byte :=
  make_frame DEVICE_ADDR x05 [x01; button; uint8 x_delta; uint8 y_delta; uint8 wheel].

Definition abs_frame (button : byte) (x y wheel : Z) : list byte :=
  make_frame DEVICE_ADDR x04
    [x02; button; uint8 (x mod 256); uint8 (x / 256);
     uint8 (y mod 256); uint8 (y / 256); uint8 wheel].

(** A gesture hands the frames of [seq] to the port in this order,
    at least one and possibly not all of them, and returns [true] only
    after the last one. *)
Definition sends_in_order (c : IO bool) (seq : list (list byte)) : Prop :=
  forall p : Port,
    exists n : nat,
      (1 <= n <= length seq)%nat
      /\ written (snd (c p)) = written p ++ firstn n seq
      /\ (fst (c p) = true -> n = length seq).

(** * Properties of the frame codec *)

Section Arithmetic.

Lemma int32_mod_256 z : int32 z mod 256 = z mod 256.
Proof.
  unfold int32.
  change (2 ^ 32) with 4294967296. change (2 ^ 31) with 2147483648.
  Z.div_mod_to_equations. lia.
Qed.

Lemma uint8_unsigned z : #(uint8 z) = z mod 256.
Proof. unfold uint8. rewrite byte.unsigned_of_Z. reflexivity. Qed.

Lemma uint8_eq_iff a b : uint8 a = uint8 b <-> a mod 256 = b mod 256.
Proof.
  split; intros H.
  - rewrite <- !uint8_unsigned, H. reflexivity.
  - apply byte.unsigned_inj. rewrite !uint8_unsigned. exact H.
Qed.

Lemma unsigned_range b : 0 <= #b < 256.
Proof. exact (byte.unsigned_range b). Qed.

Lemma ne8_false_iff a b : ne8 a b = false <-> a = b.
Proof.
  unfold ne8. rewrite negb_false_iff, Z.eqb_eq.
  split; [apply byte.unsigned_inj | congruence].
Qed.

Lemma ne8_true_iff a b : ne8 a b = true <-> a <> b.
Proof.
  unfold ne8. rewrite negb_true_iff, Z.eqb_neq.
  split; intros H E; apply H; [congruence | now apply byte.unsigned_inj].
Qed.

Lemma accumulate_mod_256 l init :
  accumulate l init mod 256 = (init + byte_sum l) mod 256.
Proof.
  unfold accumulate. revert init.
  induction l as [|b l IH]; intros init; simpl.
  - now rewrite Z.add_0_r.
  - rewrite IH, Zplus_mod, int32_mod_256, <- Zplus_mod.
    f_equal. lia.
Qed.

(** The checksum the code computes is the mod-256 sum of the bytes. *)
Lemma checksum_is_sum l : uint8 (accumulate l 0) = uint8 (byte_sum l).
Proof. apply uint8_eq_iff. now rewrite accumulate_mod_256. Qed.

Lemma byte_sum_app l1 l2 : byte_sum (l1 ++ l2) = byte_sum l1 + byte_sum l2.
Proof. induction l1 as [|b l1 IH]; simpl; [reflexivity | rewrite IH; lia]. Qed.

End Arithmetic.

Section FrameShape.

Variables (b0 b1 b2 b3 b4 s : byte) (body : list byte).

Lemma size_framed :
  size (b0 :: b1 :: b2 :: b3 :: b4 :: body ++ [s]) = 6 + size body.
Proof.
  unfold size. cbn [length]. rewrite length_app. cbn [length]. lia.
Qed.

Lemma removelast_framed :
  removelast (b0 :: b1 :: b2 :: b3 :: b4 :: body ++ [s])
  = b0 :: b1 :: b2 :: b3 :: b4 :: body.
Proof.
  change (b0 :: b1 :: b2 :: b3 :: b4 :: body ++ [s])
    with ([b0; b1; b2; b3; b4] ++ body ++ [s]).
  rewrite app_assoc, removelast_last. reflexivity.
Qed.

Lemma back_framed : back (b0 :: b1 :: b2 :: b3 :: b4 :: body ++ [s]) = s.
Proof.
  unfold back.
  change (b0 :: b1 :: b2 :: b3 :: b4 :: body ++ [s])
    with ([b0; b1; b2; b3; b4] ++ body ++ [s]).
  rewrite app_assoc. apply last_last.
Qed.

(** What the guards of [validate_response] test on a response of at
    least six bytes, in terms of its fields. *)
Lemma validate_response_framed expected_cmd :
  validate_response (b0 :: b1 :: b2 :: b3 :: b4 :: body ++ [s]) expected_cmd =
    if ne8 b0 FRAME_HEAD_1 || ne8 b1 FRAME_HEAD_2 then None
    else if ne8 b2 DEVICE_ADDR then None
    else if negb (Z.land #b3 0x3F =? #expected_cmd) then None
    else if negb (size body =? #b4) then None
    else if ne8 s (uint8 (#b0 + #b1 + #b2 + #b3 + #b4 + byte_sum body)) then None
    else Some body.
Proof.
  unfold validate_response.
  rewrite size_framed, removelast_framed, back_framed, checksum_is_sum.
  assert (Hsz : 0 <= size body) by (unfold size; lia).
  replace (6 + size body <? 6) with false by (symmetry; apply Z.ltb_ge; lia).
  replace (byte_sum (b0 :: b1 :: b2 :: b3 :: b4 :: body))
    with (#b0 + #b1 + #b2 + #b3 + #b4 + byte_sum body)
    by (unfold byte_sum; cbn [fold_right]; lia).
  unfold at_. cbn [nth skipn].
  replace (6 + size body =? 6 + #b4) with (size body =? #b4)
    by (destruct (Z.eqb_spec (size body) #b4), (Z.eqb_spec (6 + size body) (6 + #b4));
        try reflexivity; exfalso; lia).
  rewrite removelast_last. reflexivity.
Qed.

(** The same for the specification's step-by-step validation. *)
Lemma spec_validate_response_framed expected_cmd :
  spec_validate_response (b0 :: b1 :: b2 :: b3 :: b4 :: body ++ [s]) expected_cmd =
    if ne8 b0 FRAME_HEAD_1 || ne8 b1 FRAME_HEAD_2 then inl BadHeader
    else if ne8 b2 DEVICE_ADDR then inl BadAddress
    else if negb (Z.land #b3 0x3F =? #expected_cmd) then inl CommandMismatch
    else if negb (size body =? #b4) then inl LengthMismatch
    else if ne8 s (uint8 (#b0 + #b1 + #b2 + #b3 + #b4 + byte_sum body))
         then inl ChecksumMismatch
    else inr body.
Proof.
  pose proof removelast_framed as Hrl. pose proof size_framed as Hsz.
  unfold spec_validate_response. fold (size (b0 :: b1 :: b2 :: b3 :: b4 :: body ++ [s])).
  rewrite Hrl, Hsz, last_last, removelast_last.
  replace (length (body ++ [s]) <? 1)%nat with false
    by (symmetry; apply Nat.ltb_ge; rewrite length_app; cbn [length]; lia).
  replace (6 + size body =? 6 + #b4) with (size body =? #b4)
    by (destruct (Z.eqb_spec (size body) #b4), (Z.eqb_spec (6 + size body) (6 + #b4));
        try reflexivity; exfalso; lia).
  replace (byte_sum (b0 :: b1 :: b2 :: b3 :: b4 :: body))
    with (#b0 + #b1 + #b2 + #b3 + #b4 + byte_sum body)
    by (unfold byte_sum; cbn [fold_right]; lia).
  change 64 with (2 ^ 6). rewrite <- Z.land_ones by lia.
  change (Z.ones 6) with 0x3F.
  unfold ne8. rewrite uint8_unsigned.
  change (#FRAME_HEAD_1) with 0x57. change (#FRAME_HEAD_2) with 0xAB.
  change (#DEVICE_ADDR) with 0x00.
  rewrite negb_andb. reflexivity.
Qed.

End FrameShape.

(** Every vector of at least six bytes has the shape of a frame. *)
Lemma framed_or_short (resp : list byte) :
  (length resp < 6)%nat \/
  exists b0 b1 b2 b3 b4 body s, resp = b0 :: b1 :: b2 :: b3 :: b4 :: body ++ [s].
Proof.
  destruct resp as [|b0 [|b1 [|b2 [|b3 [|b4 [|b5 rest]]]]]]; cbn [length]; try (left; lia).
  destruct (exists_last (l := b5 :: rest)) as (body & s & E); [discriminate|].
  right. exists b0, b1, b2, b3, b4, body, s. now rewrite E.
Qed.

(** [validate_response] refines the specification's validation: it
    accepts the same responses with the same payload and rejects the
    others, forgetting the kind of the failure. *)
Lemma validate_response_refines_spec resp expected_cmd :
  validate_response resp expected_cmd =
    match spec_validate_response resp expected_cmd with
    | inl _ => None
    | inr payload => Some payload
    end.
Proof.
  destruct (framed_or_short resp) as [Hshort | (b0 & b1 & b2 & b3 & b4 & body & s & ->)].
  - unfold validate_response.
    replace (size resp <? 6) with true by (symmetry; apply Z.ltb_lt; unfold size; lia).
    destruct resp as [|b0 [|b1 [|b2 [|b3 [|b4 [|b5 rest]]]]]]; try reflexivity.
    cbn [length] in Hshort. lia.
  - rewrite validate_response_framed, spec_validate_response_framed.
    repeat match goal with |- context [if ?c then _ else _] => destruct c end; reflexivity.
Qed.

(** ** Frames built by [make_frame] *)

Lemma ne8_refl a : ne8 a a = false.
Proof. now apply ne8_false_iff. Qed.

Lemma make_frame_fields addr cmd data :
  make_frame addr cmd data =
    FRAME_HEAD_1 :: FRAME_HEAD_2 :: addr :: cmd :: uint8 (size data) :: data ++
    [uint8 (#FRAME_HEAD_1 + #FRAME_HEAD_2 + #addr + #cmd + #(uint8 (size data))
            + byte_sum data)].
Proof.
  unfold make_frame. cbv zeta. rewrite checksum_is_sum.
  cbn [app]. do 8 f_equal.
  unfold byte_sum. cbn [fold_right]. lia.
Qed.

Lemma length_make_frame addr cmd data :
  length (make_frame addr cmd data) = (6 + length data)%nat.
Proof.
  rewrite make_frame_fields. cbn [length]. rewrite length_app. cbn [length]. lia.
Qed.

(** C2, counterexample: the frame for address 0x00, command 0x01 and an
    empty payload does not end with the checksum byte 0x58. *)
Lemma make_frame_get_info_not_0x58 :
  make_frame x00 x01 [] <> [x57; xab; x00; x01; x00; x58].
Proof. vm_compute. discriminate. Qed.

(** C2, as amended: for every address, command and payload, [make_frame]
    emits the bytes 0x57, 0xAB, address, command and the payload length
    reduced to a byte, then the payload, then one checksum byte equal to
    the sum modulo 256 of all preceding bytes; for address 0x00, command
    0x01 and an empty payload the frame is 57 AB 00 01 00 03. *)
Theorem make_frame_layout :
  forall (addr cmd : byte) (data : list byte),
    (exists checksum : byte,
        make_frame addr cmd data =
          [x57; xab; addr; cmd; uint8 (size data)] ++ data ++ [checksum]
        /\ #(uint8 (size data)) = size data mod 256
        /\ #checksum = byte_sum ([x57; xab; addr; cmd; uint8 (size data)] ++ data) mod 256
        /\ #(back (make_frame addr cmd data))
           = byte_sum (removelast (make_frame addr cmd data)) mod 256)
    /\ make_frame x00 x01 [] = [x57; xab; x00; x01; x00; x03].
Proof.
  intros addr cmd data. split; [|vm_compute; reflexivity].
  rewrite make_frame_fields, back_framed, removelast_framed.
  unfold FRAME_HEAD_1, FRAME_HEAD_2.
  eexists. split; [reflexivity|].
  rewrite !uint8_unsigned. split; [reflexivity|].
  assert (E : byte_sum (x57 :: xab :: addr :: cmd :: uint8 (size data) :: data)
              = #x57 + #xab + #addr + #cmd + size data mod 256 + byte_sum data).
  { unfold byte_sum. cbn [fold_right]. rewrite uint8_unsigned. lia. }
  split; cbn [app]; rewrite E; reflexivity.
Qed.

(** ** Round trip *)

(** A frame built for the device address is accepted for its own command
    as long as the length fits the length byte. *)
Lemma validate_make_frame cmd payload :
  Z.land #cmd 0x3F = #cmd ->
  size payload <= 255 ->
  validate_response (make_frame DEVICE_ADDR cmd payload) cmd = Some payload.
Proof.
  intros Hcmd Hlen.
  rewrite make_frame_fields, validate_response_framed.
  rewrite !ne8_refl, Hcmd, Z.eqb_refl, uint8_unsigned.
  rewrite Z.mod_small by (unfold size in *; lia).
  rewrite Z.eqb_refl. reflexivity.
Qed.

(** C1: for every payload of 0 to 249 bytes, the device address 0x00 and
    every command byte equal to its own low six bits, validating the frame
    that [make_frame] builds against that command succeeds and returns
    exactly the payload. *)
Theorem validate_make_frame_roundtrip :
  forall (addr cmd : byte) (payload : list byte),
    addr = DEVICE_ADDR ->
    Z.land #cmd 0x3F = #cmd ->
    (length payload <= 249)%nat ->
    validate_response (make_frame addr cmd payload) cmd = Some payload.
Proof.
  intros addr cmd payload -> Hcmd Hlen.
  apply validate_make_frame; [assumption | unfold size; lia].
Qed.

Lemma validate_make_frame_roundtrip_witness :
  validate_response (make_frame x00 x01 [xaa; xbb]) x01 = Some [xaa; xbb].
Proof.
  apply (validate_make_frame_roundtrip x00 x01 [xaa; xbb]).
  - reflexivity.
  - reflexivity.
  - simpl. lia.
Defined.

(** The specification's second scenario: a response with two payload
    bytes is accepted with its checksum and rejected with another. *)
Example validate_response_scenario :
  validate_response [x57; xab; x00; x01; x02; xaa; xbb; x6a] x01 = Some [xaa; xbb]
  /\ validate_response [x57; xab; x00; x01; x02; xaa; xbb; x6b] x01 = None.
Proof. split; vm_compute; reflexivity. Qed.

(** The bound of the length byte is tight: a payload of 256 bytes is
    framed with length byte 0 and is rejected. *)
Example validate_make_frame_256 :
  validate_response (make_frame DEVICE_ADDR x01 (repeat x00 256)) x01 = None.
Proof. vm_compute. reflexivity. Qed.

(** ** Overwriting one byte of a frame *)

Section Store.

Lemma length_store l i x : length (store l i x) = length l.
Proof.
  revert i. induction l as [|b l IH]; intros [|i]; cbn [store length]; auto.
Qed.

Lemma store_app_l l1 l2 i x :
  (i < length l1)%nat -> store (l1 ++ l2) i x = store l1 i x ++ l2.
Proof.
  revert i. induction l1 as [|b l1 IH]; intros [|i] Hi; cbn [length] in Hi;
    cbn [store app]; try lia; try reflexivity.
  rewrite IH by lia. reflexivity.
Qed.

Lemma store_last l s x : store (l ++ [s]) (length l) x = l ++ [x].
Proof.
  induction l as [|b l IH]; cbn [store app length]; [reflexivity|].
  now rewrite IH.
Qed.

Lemma byte_sum_store l i x :
  (i < length l)%nat -> byte_sum (store l i x) = byte_sum l - #(nth i l x00) + #x.
Proof.
  revert i. induction l as [|b l IH]; intros [|i] Hi; cbn [length] in Hi; try lia.
  - unfold byte_sum. cbn [store fold_right nth]. lia.
  - cbn [store nth]. unfold byte_sum in *. cbn [fold_right].
    rewrite IH by lia. lia.
Qed.

(** Two sums that differ in exactly one byte have different
    checksums. *)
Lemma ne8_uint8_one_byte (a b : byte) (X Y : Z) :
  a <> b -> X - #a = Y - #b -> ne8 (uint8 X) (uint8 Y) = true.
Proof.
  intros Hab HXY. apply ne8_true_iff. intros E. apply uint8_eq_iff in E.
  assert (#a <> #b) by (intros Hu; apply Hab, byte.unsigned_inj, Hu).
  pose proof (unsigned_range a). pose proof (unsigned_range b).
  Z.div_mod_to_equations. lia.
Qed.

End Store.

(** C3, counterexample: overwriting a header byte and overwriting a
    payload byte of the same valid frame give results of
    [validate_response] that no function can tell apart, so the results
    cannot carry the kinds [BadHeader] and [ChecksumMismatch]. *)
Lemma validate_response_failures_alike :
  ~ exists kind_of : option (list byte) -> ProtocolError,
      kind_of (validate_response (store (make_frame DEVICE_ADDR x01 [xaa; xbb]) 0 x00) x01)
        = BadHeader
      /\ kind_of (validate_response (store (make_frame DEVICE_ADDR x01 [xaa; xbb]) 5 x00) x01)
        = ChecksumMismatch.
Proof.
  intros (kind_of & Hhead & Hpayload).
  vm_compute validate_response in Hhead, Hpayload.
  rewrite Hhead in Hpayload. discriminate.
Qed.

(** C3, as amended: overwriting any single byte of a frame built for the
    device address with a different value, the checksum left as it was,
    makes [validate_response] return the one failure value [nullopt];
    the check that rejects the frame is the one the specification names
    for the field: header for bytes 0 and 1, address for byte 2, command
    for byte 3 when its low six bits change (checksum when only its two
    high bits change), declared length for byte 4, checksum for every
    payload byte and for the checksum byte. *)
Theorem validate_rejects_mutated_frame :
  forall (cmd : byte) (payload : list byte) (i : nat) (v : byte),
    Z.land #cmd 0x3F = #cmd ->
    (length payload <= 249)%nat ->
    (i < length (make_frame DEVICE_ADDR cmd payload))%nat ->
    v <> at_ (make_frame DEVICE_ADDR cmd payload) i ->
    validate_response (store (make_frame DEVICE_ADDR cmd payload) i v) cmd = None
    /\ spec_validate_response (store (make_frame DEVICE_ADDR cmd payload) i v) cmd
       = inl (mutation_kind cmd i v).
Proof.
  intros cmd payload i v Hcmd Hlen Hi Hv.
  enough (Hspec : spec_validate_response (store (make_frame DEVICE_ADDR cmd payload) i v) cmd
                  = inl (mutation_kind cmd i v)).
  { split; [|exact Hspec]. now rewrite validate_response_refines_spec, Hspec. }
  rewrite length_make_frame in Hi.
  rewrite make_frame_fields in *.
  assert (Hsz : #(uint8 (size payload)) = size payload).
  { rewrite uint8_unsigned. apply Z.mod_small. unfold size. lia. }
  unfold at_ in Hv.
  destruct i as [|[|[|[|[|j]]]]]; cbn [store nth] in *.
  - rewrite spec_validate_response_framed.
    now rewrite (proj2 (ne8_true_iff v FRAME_HEAD_1)).
  - rewrite spec_validate_response_framed.
    rewrite ne8_refl, (proj2 (ne8_true_iff v FRAME_HEAD_2)) by assumption.
    reflexivity.
  - rewrite spec_validate_response_framed.
    rewrite !ne8_refl, (proj2 (ne8_true_iff v DEVICE_ADDR)) by assumption.
    reflexivity.
  - rewrite spec_validate_response_framed, !ne8_refl.
    cbn [orb mutation_kind].
    destruct (Z.land #v 0x3F =? #cmd); cbn [negb]; [|reflexivity].
    rewrite Hsz, Z.eqb_refl. cbn [negb].
    rewrite (ne8_uint8_one_byte cmd v); [reflexivity | congruence | lia].
  - rewrite spec_validate_response_framed, !ne8_refl, Hcmd, Z.eqb_refl.
    cbn [orb negb mutation_kind].
    destruct (Z.eqb_spec (size payload) #v) as [E|_]; [|reflexivity].
    exfalso. apply Hv. rewrite <- (byte.of_Z_unsigned v), <- E. reflexivity.
  - cbn [mutation_kind].
    destruct (Nat.lt_ge_cases j (length payload)) as [Hj|Hj].
    + rewrite app_nth1 in Hv by assumption.
      rewrite store_app_l by assumption.
      rewrite spec_validate_response_framed, !ne8_refl, Hcmd, Z.eqb_refl.
      cbn [orb negb].
      unfold size at 1. rewrite length_store. fold (size payload).
      rewrite Hsz, Z.eqb_refl. cbn [negb].
      rewrite byte_sum_store by assumption.
      rewrite (ne8_uint8_one_byte (nth j payload x00) v); [reflexivity | congruence | lia].
    + assert (j = length payload) by lia. subst j.
      rewrite nth_middle, Hsz in Hv. rewrite store_last.
      rewrite spec_validate_response_framed, !ne8_refl, Hcmd, Z.eqb_refl.
      cbn [orb negb].
      rewrite Hsz, Z.eqb_refl. cbn [negb].
      now rewrite (proj2 (ne8_true_iff v _)).
Qed.

Lemma validate_rejects_mutated_frame_witness :
  validate_response (store (make_frame DEVICE_ADDR x01 [xaa; xbb]) 3 x41) x01 = None
  /\ spec_validate_response (store (make_frame DEVICE_ADDR x01 [xaa; xbb]) 3 x41) x01
     = inl ChecksumMismatch.
Proof.
  apply (validate_rejects_mutated_frame x01 [xaa; xbb] 3 x41).
  - reflexivity.
  - simpl. lia.
  - vm_compute. lia.
  - vm_compute. discriminate.
Defined.

(** * Properties of the command dispatcher *)

Section Dispatcher.

Variables (cmd : byte) (data : list byte).

Lemma read_response_written p :
  written (snd (read_response p)) = written p.
Proof.
  unfold read_response, bind, read_some, ret.
  destruct (incoming p) as [|[|bytes] rest]; try reflexivity.
  generalize (firstn 128 bytes). intros buffer. cbv beta iota. cbn [orb].
  destruct (size buffer <? 6); reflexivity.
Qed.

(** [send_command] step by step on the port state. *)
Lemma send_command_steps p :
  send_command cmd data p =
    let (ec, p1) := asio_write (make_frame DEVICE_ADDR cmd data) p in
    if ec then (None, p1)
    else
      let (resp, p2) := read_response p1 in
      (match resp with
       | None => None
       | Some resp =>
           match validate_response resp cmd with
           | Some (b :: payload) => Some (b :: payload)
           | _ => None
           end
       end, p2).
Proof.
  unfold send_command, bind, sleep_for, ret.
  destruct (asio_write (make_frame DEVICE_ADDR cmd data) p) as [[|] p1]; [reflexivity|].
  destruct (read_response p1) as [[resp|] p2]; [|reflexivity].
  destruct (validate_response resp cmd) as [[|b payload]|]; reflexivity.
Qed.

(** Every call hands exactly one buffer to the port: the frame. *)
Lemma send_command_written p :
  written (snd (send_command cmd data p))
  = written p ++ [make_frame DEVICE_ADDR cmd data].
Proof.
  rewrite send_command_steps.
  assert (Hw : written (snd (asio_write (make_frame DEVICE_ADDR cmd data) p))
               = written p ++ [make_frame DEVICE_ADDR cmd data]).
  { unfold asio_write. destruct (write_errors p); reflexivity. }
  destruct (asio_write (make_frame DEVICE_ADDR cmd data) p) as [[|] p1];
    cbn [snd] in *; [exact Hw|].
  pose proof (read_response_written p1) as Hr.
  destruct (read_response p1) as [resp p2]; cbn [snd] in *. congruence.
Qed.

End Dispatcher.

(** C8: if the response passes the structural validation and its
    payload is empty, [send_command] fails; [send_command] never returns
    an empty payload. *)
Theorem send_command_rejects_empty_payload :
  forall (cmd : byte) (data : list byte) (p : Port),
    fst (send_command cmd data p) <> Some []
    /\ forall (p1 p2 : Port) (resp : list byte),
        asio_write (make_frame DEVICE_ADDR cmd data) p = (false, p1) ->
        read_response p1 = (Some resp, p2) ->
        validate_response resp cmd = Some [] ->
        send_command cmd data p = (None, p2).
Proof.
  intros cmd data p. rewrite send_command_steps. split.
  - destruct (asio_write _ p) as [[|] p1]; [discriminate|].
    destruct (read_response p1) as [[resp|] p2]; [|discriminate].
    cbn [fst]. destruct (validate_response resp cmd) as [[|b payload]|]; discriminate.
  - intros p1 p2 resp -> -> ->. reflexivity.
Qed.

Lemma send_command_rejects_empty_payload_witness :
  send_command x0c [] (mkPort [] [] [Received (make_frame DEVICE_ADDR x0c [])])
  = (None, mkPort [make_frame DEVICE_ADDR x0c []] [] []).
Proof.
  apply (proj2 (send_command_rejects_empty_payload x0c []
                  (mkPort [] [] [Received (make_frame DEVICE_ADDR x0c [])]))
           (mkPort [make_frame DEVICE_ADDR x0c []] [] [Received (make_frame DEVICE_ADDR x0c [])])
           (mkPort [make_frame DEVICE_ADDR x0c []] [] [])
           (make_frame DEVICE_ADDR x0c [])).
  - reflexivity.
  - vm_compute. reflexivity.
  - vm_compute. reflexivity.
Defined.

(** * Properties of the command catalog *)

Lemma is_success_iff (r : option (list byte)) :
  is_success r = true <->
  exists status rest, r = Some (status :: rest) /\ status = Success.
Proof.
  destruct r as [[|b l]|]; cbn [is_success empty negb andb at_ nth].
  - split; [discriminate | intros (? & ? & ? & _); discriminate].
  - rewrite Z.eqb_eq. split.
    + intros H. exists b, l. split; [reflexivity | now apply byte.unsigned_inj].
    + intros (status & rest & [= -> ->] & ->). reflexivity.
  - split; [discriminate | intros (? & ? & ? & _); discriminate].
Qed.

(** The shape shared by the commands: one exchange, then the test of the
    status byte. *)
Lemma exchange_then_status (cmd : byte) (data : list byte) (p : Port) :
  (r <- send_command cmd data ;; ret (is_success r)) p
  = (is_success (fst (send_command cmd data p)), snd (send_command cmd data p)).
Proof. unfold bind, ret. destruct (send_command cmd data p). reflexivity. Qed.

(** Each member function performs the exchange that [request] lays out,
    or none when [request] is [None]. *)
Lemma run_request (c : MutatingCommand) (p : Port) :
  run c p =
    match request c with
    | None => (false, p)
    | Some (op, data) =>
        (is_success (fst (send_command op data p)), snd (send_command op data p))
    end.
Proof.
  destruct c; cbn [run request];
    try (unfold send_kb_general_data, send_kb_media_data, send_ms_abs_data,
           send_ms_rel_data, set_usb_string, set_para_config, set_default_config,
           reset; cbv zeta; rewrite exchange_then_status; reflexivity).
  unfold send_hid_data, size.
  destruct (Nat.leb_spec (length data) 64) as [Hle|Hgt].
  - replace (64 <? Z.of_nat (length data)) with false by (symmetry; apply Z.ltb_ge; lia).
    apply exchange_then_status.
  - replace (64 <? Z.of_nat (length data)) with true by (symmetry; apply Z.ltb_lt; lia).
    reflexivity.
Qed.

(** C7: every command that changes the device returns success exactly
    when its exchange with the device returned a payload that is not
    empty and whose first byte is the status 0x00; every other status
    byte, 0xE1 to 0xE6 included, gives the same plain failure. *)
Theorem mutating_command_success_iff :
  forall (c : MutatingCommand) (p : Port),
    (fst (run c p) = true <->
       exists op data status rest,
         request c = Some (op, data)
         /\ fst (send_command op data p) = Some (status :: rest)
         /\ status :: rest <> []
         /\ status = x00)
    /\ (forall op data status rest,
          request c = Some (op, data) ->
          fst (send_command op data p) = Some (status :: rest) ->
          status <> Success ->
          fst (run c p) = false)
    /\ written (snd (run c p))
       = written p ++ match request c with
                      | Some (op, data) => [make_frame DEVICE_ADDR op data]
                      | None => []
                      end.
Proof.
  intros c p. rewrite run_request.
  destruct (request c) as [[op data]|]; cbn [fst snd].
  - split; [|split].
    + rewrite is_success_iff. split.
      * intros (status & rest & Hr & Hs).
        exists op, data, status, rest. repeat split; try assumption. discriminate.
      * intros (op' & data' & status & rest & [= <- <-] & Hr & _ & Hs).
        now exists status, rest.
    + intros op' data' status rest [= <- <-] Hr Hs.
      apply not_true_is_false. rewrite is_success_iff.
      intros (status' & rest' & Hr' & Hs'). congruence.
    + apply send_command_written.
  - split; [|split].
    + split; [discriminate | intros (? & ? & ? & ? & ? & _); discriminate].
    + discriminate.
    + now rewrite app_nil_r.
Qed.

Lemma mutating_command_success_iff_witness :
  fst (run RestoreDefaults
         (mkPort [] [] [Received (make_frame DEVICE_ADDR x0c [OperationFailed])]))
  = false.
Proof.
  apply (proj1 (proj2 (mutating_command_success_iff RestoreDefaults
                         (mkPort [] [] [Received (make_frame DEVICE_ADDR x0c [OperationFailed])])))
           x0c [] OperationFailed []).
  - reflexivity.
  - vm_compute. reflexivity.
  - discriminate.
Defined.

(** The keyboard report of the specification's third scenario. *)
Example keyboard_report_scenario :
  request (KeyboardReport LeftShift (mkKeyArray x04 x00 x00 x00 x00 x00))
  = Some (x02, [x02; x00; x04; x00; x00; x00; x00; x00]).
Proof. reflexivity. Qed.

(** C9: custom HID data of more than 64 bytes fails at once, the port
    untouched: no frame is handed to it and no response is read; data of
    at most 64 bytes is the payload of the one frame sent, byte for
    byte, under opcode 0x06. *)
Theorem send_hid_data_limit :
  forall (data : list byte) (p : Port),
    ((64 < length data)%nat -> send_hid_data data p = (false, p))
    /\ ((length data <= 64)%nat ->
        send_hid_data data p
        = (is_success (fst (send_command x06 data p)), snd (send_command x06 data p))
        /\ exists checksum,
            written (snd (send_hid_data data p))
            = written p ++ [[x57; xab; x00; x06; uint8 (size data)] ++ data ++ [checksum]]).
Proof.
  intros data p.
  pose proof (run_request (CustomHid data) p) as Hrun. cbn [run request] in Hrun.
  split; intros Hlen.
  - rewrite Hrun. now rewrite (proj2 (Nat.leb_gt _ _)).
  - rewrite Hrun, (proj2 (Nat.leb_le _ _)) by assumption.
    split; [reflexivity|]. cbn [snd].
    rewrite send_command_written, make_frame_fields.
    eexists. reflexivity.
Qed.

Lemma send_hid_data_limit_witness :
  send_hid_data (repeat xff 65) (mkPort [] [] [Received (make_frame DEVICE_ADDR x06 [x00])])
  = (false, mkPort [] [] [Received (make_frame DEVICE_ADDR x06 [x00])])
  /\ exists checksum,
      written (snd (send_hid_data [x01; x02; x03] (mkPort [] [] [])))
      = [] ++ [[x57; xab; x00; x06; uint8 (size [x01; x02; x03])]
               ++ [x01; x02; x03] ++ [checksum]].
Proof.
  split.
  - apply (proj1 (send_hid_data_limit (repeat xff 65)
                    (mkPort [] [] [Received (make_frame DEVICE_ADDR x06 [x00])]))).
    simpl. lia.
  - apply (proj2 (send_hid_data_limit [x01; x02; x03] (mkPort [] [] []))).
    simpl. lia.
Defined.

(** C10: for any two button arguments [mouse_up] behaves the same and
    transmits the relative mouse payload 01 00 00 00 00, which names no
    button: every button is released. *)
Theorem mouse_up_ignores_button :
  forall (b1 b2 : MouseButton) (p : Port),
    mouse_up b1 p = mouse_up b2 p
    /\ written (snd (mouse_up b1 p))
       = written p ++ [make_frame DEVICE_ADDR x05 [x01; x00; x00; x00; x00]]
    /\ written (snd (mouse_up b2 p))
       = written p ++ [make_frame DEVICE_ADDR x05 [x01; x00; x00; x00; x00]].
Proof.
  intros b1 b2 p. unfold mouse_up. cbv zeta.
  rewrite exchange_then_status. cbn [snd].
  rewrite send_command_written. auto.
Qed.

(** [mouse_down], by contrast, transmits its button. *)
Example mouse_down_depends_on_button :
  written (snd (mouse_down Left (mkPort [] [] [])))
  <> written (snd (mouse_down Right (mkPort [] [] []))).
Proof. vm_compute. discriminate. Qed.

(** ** Device information *)

Section BitFields.

Lemma major_nibble_fits (b : byte) :
  #(uint8 (Z.land (Z.shiftr #b 4) (0x0F - 2))) = Z.land (Z.shiftr #b 4) (0x0F - 2).
Proof.
  rewrite uint8_unsigned. apply Z.mod_small.
  pose proof (unsigned_range b) as Hb. split.
  - apply Z.land_nonneg. right. lia.
  - apply Z.le_lt_trans with 13; [|lia].
    destruct b; vm_compute; discriminate.
Qed.

Lemma minor_nibble (b : byte) : #(uint8 (Z.land #b 0x0F)) = #b mod 16.
Proof.
  rewrite uint8_unsigned.
  change 0x0F with (Z.ones 4). rewrite Z.land_ones by lia.
  change (2 ^ 4) with 16. pose proof (unsigned_range b).
  Z.div_mod_to_equations. lia.
Qed.

Lemma mask_is_testbit (b : byte) (k : Z) :
  0 <= k -> negb (Z.land #b (2 ^ k) =? 0) = Z.testbit #b k.
Proof.
  intros Hk.
  destruct (Z.testbit #b k) eqn:Hbit.
  - apply negb_true_iff, Z.eqb_neq. intros H0.
    assert (Ht : Z.testbit (Z.land #b (2 ^ k)) k = true)
      by (rewrite Z.land_spec, Hbit, Z.pow2_bits_true by lia; reflexivity).
    rewrite H0, Z.bits_0 in Ht. discriminate.
  - apply negb_false_iff, Z.eqb_eq. apply Z.bits_inj'. intros n Hn.
    rewrite Z.land_spec, Z.bits_0.
    destruct (Z.eq_dec n k) as [->|Hne].
    + now rewrite Hbit.
    + rewrite Z.pow2_bits_false by lia. apply andb_false_r.
Qed.

Lemma unsigned_eqb_iff (b c : byte) (z : Z) :
  z = #c -> ((#b =? z) = true <-> b = c).
Proof.
  intros ->. rewrite Z.eqb_eq. split; [apply byte.unsigned_inj | now intros ->].
Qed.

End BitFields.

(** C4: when the device-info exchange returns a payload of at least 8
    bytes, [get_info] returns a [DeviceInfo] whose major version is
    [(byte0 >> 4) & (0x0F - 2)] (the subtraction applies to the mask),
    whose minor version is the low nibble of byte 0, whose USB flag
    holds iff byte 1 is 0x01, whose num, caps and scroll lock flags are
    bits 0, 1 and 2 of byte 2, and whose sleeping flag holds iff byte 3
    is 0x03; with a payload of fewer than 8 bytes [get_info] fails. *)
Theorem get_info_decodes :
  forall (p p' : Port) (payload : list byte),
    send_command x01 [] p = (Some payload, p') ->
    ((8 <= length payload)%nat ->
     exists info,
       get_info p = (Some info, p')
       /\ #(version_major info) = Z.land (Z.shiftr #(at_ payload 0) 4) (0x0F - 2)
       /\ #(version_minor info) = #(at_ payload 0) mod 16
       /\ (usb_connected info = true <-> at_ payload 1 = x01)
       /\ num_lock info = Z.testbit #(at_ payload 2) 0
       /\ caps_lock info = Z.testbit #(at_ payload 2) 1
       /\ scroll_lock info = Z.testbit #(at_ payload 2) 2
       /\ (pc_sleeping info = true <-> at_ payload 3 = x03))
    /\ ((length payload < 8)%nat -> get_info p = (None, p')).
Proof.
  intros p p' payload Hsend.
  unfold get_info, bind. rewrite Hsend. unfold size. split; intros Hlen.
  - replace (Z.of_nat (length payload) <? 8) with false by (symmetry; apply Z.ltb_ge; lia).
    eexists. split; [reflexivity|].
    cbn [version_major version_minor usb_connected num_lock caps_lock scroll_lock
         pc_sleeping].
    split; [apply major_nibble_fits|].
    split; [apply minor_nibble|].
    split; [now apply unsigned_eqb_iff|].
    split; [exact (mask_is_testbit _ 0 ltac:(lia))|].
    split; [exact (mask_is_testbit _ 1 ltac:(lia))|].
    split; [exact (mask_is_testbit _ 2 ltac:(lia))|].
    now apply unsigned_eqb_iff.
  - replace (Z.of_nat (length payload) <? 8) with true by (symmetry; apply Z.ltb_lt; lia).
    reflexivity.
Qed.

Lemma get_info_decodes_witness :
  (exists info,
      get_info (mkPort [] [] [Received (make_frame DEVICE_ADDR x81
                                          [x40; x01; x05; x03; x00; x00; x00; x00])])
      = (Some info, mkPort [make_frame DEVICE_ADDR x01 []] [] [])
      /\ #(version_major info) = 4
      /\ #(version_minor info) = 0
      /\ (usb_connected info = true <-> x01 = x01)
      /\ num_lock info = true
      /\ caps_lock info = false
      /\ scroll_lock info = true
      /\ (pc_sleeping info = true <-> x03 = x03))
  /\ get_info (mkPort [] [] [Received (make_frame DEVICE_ADDR x81 [x40; x01; x05; x03])])
     = (None, mkPort [make_frame DEVICE_ADDR x01 []] [] []).
Proof.
  split.
  - apply (proj1 (get_info_decodes
                    (mkPort [] [] [Received (make_frame DEVICE_ADDR x81
                                               [x40; x01; x05; x03; x00; x00; x00; x00])])
                    (mkPort [make_frame DEVICE_ADDR x01 []] [] [])
                    [x40; x01; x05; x03; x00; x00; x00; x00]
                    ltac:(vm_compute; reflexivity))).
    simpl. lia.
  - apply (proj2 (get_info_decodes
                    (mkPort [] [] [Received (make_frame DEVICE_ADDR x81 [x40; x01; x05; x03])])
                    (mkPort [make_frame DEVICE_ADDR x01 []] [] [])
                    [x40; x01; x05; x03]
                    ltac:(vm_compute; reflexivity))).
    simpl. lia.
Defined.

(** The major version is the high nibble with bit 1 cleared, not the
    high nibble less two: version byte 0x40 decodes to major 4. *)
Example version_major_of_0x40 :
  Z.land (Z.shiftr #x40 4) (0x0F - 2) = 4 /\ Z.shiftr #x40 4 - 2 = 2.
Proof. split; reflexivity. Qed.

(** ** Absolute mouse report *)

Section LittleEndian.

Lemma little_endian_16 (x : Z) :
  0 <= x < 65536 ->
  #(uint8 (Z.land x 0xFF)) + 256 * #(uint8 (Z.land (Z.shiftr x 8) 0xFF)) = x.
Proof.
  intros Hx. rewrite !uint8_unsigned.
  change 0xFF with (Z.ones 8).
  rewrite !Z.land_ones, Z.shiftr_div_pow2 by lia.
  change (2 ^ 8) with 256. Z.div_mod_to_equations. lia.
Qed.

Lemma int8_uint8 (w : Z) : -128 <= w < 128 -> int8 (uint8 w) = w.
Proof.
  intros Hw. unfold int8. rewrite uint8_unsigned.
  destruct (Z.ltb_spec (w mod 256) 128); Z.div_mod_to_equations; lia.
Qed.

End LittleEndian.

(** C5, counterexample: for x = 5000 [send_ms_abs_data] does not send
    the report with X clamped to 4095. *)
Lemma send_ms_abs_data_not_clamped :
  written (snd (send_ms_abs_data Left 5000 0 0 (mkPort [] [] [])))
  <> [make_frame DEVICE_ADDR x04 (spec_abs_report Left 5000 0 0)].
Proof. vm_compute. discriminate. Qed.

(** What [send_ms_abs_data] sends for x = 5000 = 0x1388. *)
Example send_ms_abs_data_5000 :
  written (snd (send_ms_abs_data Left 5000 0 0 (mkPort [] [] [])))
  = [make_frame DEVICE_ADDR x04 [x02; x01; x88; x13; x00; x00; x00]].
Proof. vm_compute. reflexivity. Qed.

(** C5, as amended: for every button, x, y and wheel argument
    [send_ms_abs_data] sends under opcode 0x04 a 7-byte payload made of
    the report id 0x02, the button byte, X and Y each as the 16-bit
    value given, low byte first and not clamped, and the wheel delta as
    a signed byte; [move_to_absolute] sends the same report with no
    button, no wheel movement and X and Y each clamped to 4095. *)
Theorem abs_mouse_report_payload :
  forall (button : MouseButton) (x y wheel : Z) (p : Port),
    0 <= x < 65536 -> 0 <= y < 65536 -> -128 <= wheel < 128 ->
    (exists xl xh yl yh w,
        written (snd (send_ms_abs_data button x y wheel p))
        = written p ++ [make_frame DEVICE_ADDR x04 [x02; button; xl; xh; yl; yh; w]]
        /\ #xl + 256 * #xh = x
        /\ #yl + 256 * #yh = y
        /\ int8 w = wheel)
    /\ (exists xl xh yl yh,
        written (snd (move_to_absolute x y p))
        = written p ++ [make_frame DEVICE_ADDR x04 [x02; x00; xl; xh; yl; yh; x00]]
        /\ #xl + 256 * #xh = Z.min x 4095
        /\ #yl + 256 * #yh = Z.min y 4095).
Proof.
  intros button x y wheel p Hx Hy Hw. split.
  - unfold send_ms_abs_data. cbv zeta. rewrite exchange_then_status. cbn [snd].
    rewrite send_command_written.
    cbv [repeat store pack_mouse_button].
    do 5 eexists. split; [reflexivity|].
    auto using little_endian_16, int8_uint8.
  - unfold move_to_absolute. cbv zeta. rewrite exchange_then_status. cbn [snd].
    rewrite send_command_written.
    cbv [repeat store]. change (uint16 4095) with 4095.
    do 4 eexists. split; [reflexivity|].
    split; apply little_endian_16; lia.
Qed.

Lemma abs_mouse_report_payload_witness :
  (exists xl xh yl yh w,
      written (snd (send_ms_abs_data Left 5000 17 (-1) (mkPort [] [] [])))
      = [] ++ [make_frame DEVICE_ADDR x04 [x02; Left; xl; xh; yl; yh; w]]
      /\ #xl + 256 * #xh = 5000
      /\ #yl + 256 * #yh = 17
      /\ int8 w = -1)
  /\ (exists xl xh yl yh,
      written (snd (move_to_absolute 5000 17 (mkPort [] [] [])))
      = [] ++ [make_frame DEVICE_ADDR x04 [x02; x00; xl; xh; yl; yh; x00]]
      /\ #xl + 256 * #xh = Z.min 5000 4095
      /\ #yl + 256 * #yh = Z.min 17 4095).
Proof.
  apply (abs_mouse_report_payload Left 5000 17 (-1) (mkPort [] [] [])); lia.
Defined.

(** * Properties of the coordinate mapper *)

Section Mapper.

Lemma convert_axes x y w h :
  w <> 0 -> h <> 0 ->
  convert_screen_to_absolute x y w h = Some (axis x w, axis y h).
Proof.
  intros Hw Hh. unfold convert_screen_to_absolute.
  rewrite (proj2 (Z.eqb_neq w 0)), (proj2 (Z.eqb_neq h 0)) by assumption.
  reflexivity.
Qed.

Lemma axis_bounded pos extent : 0 <= axis pos extent <= 4095.
Proof.
  unfold axis. change (uint16 4095) with 4095. unfold uint16.
  pose proof (Z.mod_pos_bound (uint32 (uint32 pos * 4095) / extent) (2 ^ 16)).
  lia.
Qed.

Lemma axis_exact pos extent :
  0 <= pos < 65536 -> 1 <= extent -> pos <= 16 * extent ->
  axis pos extent = Z.min (pos * 4095 / extent) 4095.
Proof.
  intros Hpos Hext Hnear. unfold axis. change (uint16 4095) with 4095.
  unfold uint16, uint32.
  rewrite (Z.mod_small pos) by lia.
  rewrite (Z.mod_small (pos * 4095)) by lia.
  rewrite Z.mod_small; [reflexivity|].
  split; [apply Z.div_pos; lia|].
  apply Z.div_lt_upper_bound; [lia|]. change (2 ^ 16) with 65536. nia.
Qed.

(** The part of the mapping that holds: the origin maps to the origin
    and no output exceeds 4095. *)
Lemma convert_origin_and_bound x y w h :
  1 <= w -> 1 <= h ->
  convert_screen_to_absolute 0 0 w h = Some (0, 0)
  /\ exists ax ay,
      convert_screen_to_absolute x y w h = Some (ax, ay)
      /\ 0 <= ax <= 4095 /\ 0 <= ay <= 4095.
Proof.
  intros Hw Hh. rewrite !convert_axes by lia. split.
  - rewrite !axis_exact by lia. rewrite Z.mul_0_l, !Z.div_0_l by lia. reflexivity.
  - exists (axis x w), (axis y h). auto using axis_bounded.
Qed.

(** The mapping is monotone as long as no coordinate exceeds sixteen
    times the extent of its axis. *)
Lemma convert_monotone_near_screen x1 y1 x2 y2 w h :
  1 <= w -> 1 <= h ->
  0 <= x1 <= x2 -> x2 <= 16 * w -> x2 < 65536 ->
  0 <= y1 <= y2 -> y2 <= 16 * h -> y2 < 65536 ->
  exists ax1 ay1 ax2 ay2,
    convert_screen_to_absolute x1 y1 w h = Some (ax1, ay1)
    /\ convert_screen_to_absolute x2 y2 w h = Some (ax2, ay2)
    /\ ax1 <= ax2 /\ ay1 <= ay2.
Proof.
  intros Hw Hh Hx Hx2 Hx3 Hy Hy2 Hy3. rewrite !convert_axes by lia.
  do 4 eexists. split; [reflexivity|]. split; [reflexivity|].
  rewrite !axis_exact by lia.
  split; apply Z.min_le_compat_r, Z.div_le_mono; lia.
Qed.

End Mapper.

(** C6, where the code departs from the specification's monotone
    mapping: on a screen 1920 wide, x = 30727 maps to 4095 and the
    larger x = 30728 maps to 1, because the scaled value is cut to 16
    bits before it is clamped; the outputs stay within 4095 and the
    output is not monotone in x. *)
Theorem convert_screen_to_absolute_not_monotone :
  convert_screen_to_absolute 30727 0 1920 1080 = Some (4095, 0)
  /\ convert_screen_to_absolute 30728 0 1920 1080 = Some (1, 0).
Proof. split; vm_compute; reflexivity. Qed.

(** * Further properties of the frame codec *)

Lemma validate_response_short resp cmd :
  (length resp < 6)%nat -> validate_response resp cmd = None.
Proof.
  intros Hshort. unfold validate_response.
  replace (size resp <? 6) with true by (symmetry; apply Z.ltb_lt; unfold size; lia).
  reflexivity.
Qed.

Lemma size_le_255 (l : list byte) :
  (length l <= 255)%nat -> #(uint8 (size l)) = size l.
Proof.
  intros Hl. rewrite uint8_unsigned. apply Z.mod_small. unfold size. lia.
Qed.

Lemma land_0x3F_bound z : 0 <= Z.land z 0x3F < 64.
Proof.
  change 0x3F with (Z.ones 6). rewrite Z.land_ones by lia.
  apply Z.mod_pos_bound. reflexivity.
Qed.

(** A frame built for the device address is accepted for the low six
    bits of its command byte, whatever its two high bits. *)
Lemma validate_make_frame_flagged c cmd payload :
  Z.land #c 0x3F = #cmd ->
  (length payload <= 255)%nat ->
  validate_response (make_frame DEVICE_ADDR c payload) cmd = Some payload.
Proof.
  intros Hc Hlen.
  rewrite make_frame_fields, validate_response_framed.
  rewrite !ne8_refl, Hc, Z.eqb_refl, size_le_255, Z.eqb_refl by assumption.
  reflexivity.
Qed.

(** Whatever [validate_response] accepts is a frame of [make_frame]. *)
Lemma validate_response_inv resp cmd payload :
  validate_response resp cmd = Some payload ->
  exists c : byte,
    resp = make_frame DEVICE_ADDR c payload
    /\ Z.land #c 0x3F = #cmd
    /\ (length payload <= 255)%nat.
Proof.
  intros Hv.
  destruct (framed_or_short resp) as [Hshort | (b0 & b1 & b2 & b3 & b4 & body & s & ->)].
  - rewrite validate_response_short in Hv by assumption. discriminate.
  - rewrite validate_response_framed in Hv.
    destruct (ne8 b0 FRAME_HEAD_1) eqn:H0; [discriminate|].
    destruct (ne8 b1 FRAME_HEAD_2) eqn:H1; [discriminate|].
    destruct (ne8 b2 DEVICE_ADDR) eqn:H2; [discriminate|].
    cbn [orb] in Hv.
    destruct (Z.eqb_spec (Z.land #b3 0x3F) #cmd) as [Hc|]; [|discriminate].
    destruct (Z.eqb_spec (size body) #b4) as [Hl|]; [|discriminate].
    cbn [negb] in Hv.
    destruct (ne8 s _) eqn:Hs; [discriminate|].
    injection Hv as <-.
    apply ne8_false_iff in H0, H1, H2, Hs. subst b0 b1 b2 s.
    assert (Hb4 : uint8 (size body) = b4)
      by (rewrite Hl; apply byte.of_Z_unsigned).
    exists b3. split; [|split].
    + rewrite make_frame_fields, Hb4. reflexivity.
    + exact Hc.
    + pose proof (unsigned_range b4). unfold size in Hl. lia.
Qed.

(** X1: [validate_response] accepts a response for a command exactly
    when the response is, byte for byte, the frame [make_frame] builds
    for the device address, a command byte whose low six bits are the
    expected command, and a payload of at most 255 bytes; the result is
    that payload. *)
Theorem validate_response_accepts_exactly_frames :
  forall (resp : list byte) (cmd : byte) (payload : list byte),
    validate_response resp cmd = Some payload <->
    exists c : byte,
      resp = make_frame DEVICE_ADDR c payload
      /\ Z.land #c 0x3F = #cmd
      /\ (length payload <= 255)%nat.
Proof.
  intros resp cmd payload. split.
  - apply validate_response_inv.
  - intros (c & -> & Hc & Hlen). now apply validate_make_frame_flagged.
Qed.

Lemma validate_response_high_opcode resp cmd :
  64 <= #cmd -> validate_response resp cmd = None.
Proof.
  intros Hcmd.
  destruct (validate_response resp cmd) as [payload|] eqn:Hv; [|reflexivity].
  apply validate_response_inv in Hv. destruct Hv as (c & _ & Hc & _).
  pose proof (land_0x3F_bound #c). lia.
Qed.

(** X2: no response is ever accepted for an expected command of 0x40
    or more, so [send_command] fails for every such opcode whatever the
    device replies. *)
Theorem opcode_above_0x3F_never_answered :
  forall (cmd : byte) (data : list byte) (p : Port),
    64 <= #cmd ->
    (forall resp : list byte, validate_response resp cmd = None)
    /\ fst (send_command cmd data p) = None.
Proof.
  intros cmd data p Hcmd. split.
  - intros resp. now apply validate_response_high_opcode.
  - rewrite send_command_steps.
    destruct (asio_write _ p) as [[|] p1]; [reflexivity|].
    destruct (read_response p1) as [[resp|] p2]; [|reflexivity].
    cbn [fst]. now rewrite validate_response_high_opcode.
Qed.

Lemma opcode_above_0x3F_never_answered_witness :
  (forall resp : list byte, validate_response resp x41 = None)
  /\ fst (send_command x41 [] (mkPort [] [] [Received (make_frame DEVICE_ADDR x41 [x00])]))
     = None.
Proof.
  apply (opcode_above_0x3F_never_answered x41 []
           (mkPort [] [] [Received (make_frame DEVICE_ADDR x41 [x00])])).
  vm_compute. discriminate.
Defined.

Lemma validate_oversize_frame addr cmd expected_cmd data :
  (256 <= length data)%nat ->
  validate_response (make_frame addr cmd data) expected_cmd = None.
Proof.
  intros Hlen.
  rewrite make_frame_fields, validate_response_framed.
  assert (Hne : (size data =? #(uint8 (size data))) = false).
  { apply Z.eqb_neq. pose proof (unsigned_range (uint8 (size data))).
    unfold size in *. lia. }
  rewrite Hne. cbn [negb].
  repeat match goal with |- context [if ?c then _ else _] => destruct c end; reflexivity.
Qed.

(** X3: [make_frame] never fails, but a payload of 256 bytes or more
    gets a length byte that no longer tells its length, and the frame
    is rejected by [validate_response] for every expected command. *)
Theorem make_frame_oversize_rejected :
  forall (addr cmd expected_cmd : byte) (data : list byte),
    (256 <= length data)%nat ->
    validate_response (make_frame addr cmd data) expected_cmd = None.
Proof.
  intros addr cmd expected_cmd data. apply validate_oversize_frame.
Qed.

Lemma make_frame_oversize_rejected_witness :
  validate_response (make_frame DEVICE_ADDR x0b (repeat x41 300)) x0b = None.
Proof.
  apply (make_frame_oversize_rejected DEVICE_ADDR x0b x0b (repeat x41 300)).
  rewrite repeat_length. lia.
Defined.

(** X4: [make_frame] is injective: two frames are equal only when
    address, command and payload are. *)
Theorem make_frame_injective :
  forall (addr addr' cmd cmd' : byte) (data data' : list byte),
    make_frame addr cmd data = make_frame addr' cmd' data' ->
    addr = addr' /\ cmd = cmd' /\ data = data'.
Proof.
  intros addr addr' cmd cmd' data data' H.
  rewrite !make_frame_fields in H.
  injection H as Ha Hc _ Hrest.
  apply app_inj_tail in Hrest. destruct Hrest as [Hd _]. auto.
Qed.

Lemma make_frame_injective_witness :
  x00 = x00 /\ x05 = x05 /\ [x01; x00] = [x01; x00].
Proof.
  apply (make_frame_injective x00 x00 x05 x05 [x01; x00] [x01; x00]). reflexivity.
Defined.

Lemma byte_sum_permutation l l' : Permutation l l' -> byte_sum l = byte_sum l'.
Proof.
  unfold byte_sum.
  induction 1; cbn [fold_right]; lia.
Qed.

(** X5: the checksum does not see the order of the payload bytes: a
    valid frame whose payload bytes are put in another order, header and
    checksum byte unchanged, is accepted and yields the reordered
    payload. *)
Theorem validate_response_accepts_reordered_payload :
  forall (cmd : byte) (payload payload' : list byte),
    Z.land #cmd 0x3F = #cmd ->
    (length payload <= 255)%nat ->
    Permutation payload payload' ->
    validate_response
      (firstn 5 (make_frame DEVICE_ADDR cmd payload)
       ++ payload' ++ [back (make_frame DEVICE_ADDR cmd payload)]) cmd
    = Some payload'.
Proof.
  intros cmd payload payload' Hcmd Hlen Hperm.
  rewrite make_frame_fields, back_framed. cbn [firstn app].
  rewrite validate_response_framed.
  assert (Hsz : size payload' = size payload)
    by (unfold size; now rewrite (Permutation_length Hperm)).
  rewrite !ne8_refl, Hcmd, Z.eqb_refl, Hsz, size_le_255, Z.eqb_refl by assumption.
  rewrite (byte_sum_permutation _ _ Hperm), ne8_refl. reflexivity.
Qed.

Lemma validate_response_accepts_reordered_payload_witness :
  validate_response
    (firstn 5 (make_frame DEVICE_ADDR x02 [x02; x00; x04; x05])
     ++ [x02; x00; x05; x04] ++ [back (make_frame DEVICE_ADDR x02 [x02; x00; x04; x05])]) x02
  = Some [x02; x00; x05; x04].
Proof.
  apply (validate_response_accepts_reordered_payload x02 [x02; x00; x04; x05]
           [x02; x00; x05; x04]).
  - reflexivity.
  - simpl. lia.
  - apply perm_skip, perm_skip, perm_swap.
Defined.

(** * Further properties of the command dispatcher *)

Lemma read_response_inv p buf p' :
  read_response p = (Some buf, p') ->
  (6 <= length buf <= 128)%nat
  /\ written p' = written p
  /\ write_errors p' = write_errors p.
Proof.
  unfold read_response, bind, read_some, ret.
  destruct (incoming p) as [|[|bytes] rest]; cbv beta iota; cbn [orb];
    try discriminate.
  pose proof (firstn_le_length 128 bytes) as Hcap. revert Hcap.
  generalize (firstn 128 bytes) as buffer. intros buffer Hcap. cbv zeta.
  destruct (Z.ltb_spec (size buffer) 6) as [|Hsix]; [discriminate|].
  intros [= <- <-]. cbn [written write_errors]. unfold size in Hsix.
  repeat split; try reflexivity; lia.
Qed.

(** X6: what [read_response] (and so [read_hid_data]) returns has at
    least 6 and at most 128 bytes, and reading hands nothing to the
    port. *)
Theorem read_response_bounds :
  forall (p p' : Port) (buf : list byte),
    read_hid_data p = (Some buf, p') ->
    read_response p = (Some buf, p')
    /\ (6 <= length buf <= 128)%nat
    /\ written p' = written p.
Proof.
  intros p p' buf H. change read_hid_data with read_response in H.
  destruct (read_response_inv _ _ _ H) as (Hlen & Hw & _). auto.
Qed.

Lemma read_response_bounds_witness :
  read_response (mkPort [] [] [Received (repeat x00 200)])
  = (Some (repeat x00 128), mkPort [] [] [Received (repeat x00 72)])
  /\ (6 <= length (repeat x00 128) <= 128)%nat
  /\ written (mkPort [] [] [Received (repeat x00 72)]) = written (mkPort [] [] [Received (repeat x00 200)]).
Proof.
  apply (read_response_bounds (mkPort [] [] [Received (repeat x00 200)])
           (mkPort [] [] [Received (repeat x00 72)]) (repeat x00 128)).
  vm_compute. reflexivity.
Defined.

Lemma send_command_inv cmd data p payload p' :
  send_command cmd data p = (Some payload, p') ->
  exists p1 c,
    asio_write (make_frame DEVICE_ADDR cmd data) p = (false, p1)
    /\ read_response p1 = (Some (make_frame DEVICE_ADDR c payload), p')
    /\ Z.land #c 0x3F = #cmd
    /\ payload <> [].
Proof.
  rewrite send_command_steps.
  destruct (asio_write _ p) as [[|] p1]; [discriminate|].
  destruct (read_response p1) as [[resp|] p2] eqn:Hread; [|discriminate].
  destruct (validate_response resp cmd) as [[|b rest]|] eqn:Hv; try discriminate.
  intros [= <- <-].
  apply validate_response_inv in Hv. destruct Hv as (c & -> & Hc & _).
  exists p1, c. repeat split; try assumption. discriminate.
Qed.

(** X7: a payload returned by [send_command] has at least 1 and at most
    122 bytes: the 128-byte read buffer less the 6 bytes of framing. *)
Theorem send_command_payload_bounds :
  forall (cmd : byte) (data : list byte) (p p' : Port) (payload : list byte),
    send_command cmd data p = (Some payload, p') ->
    (1 <= length payload <= 122)%nat.
Proof.
  intros cmd data p p' payload H.
  apply send_command_inv in H. destruct H as (p1 & c & _ & Hread & _ & Hne).
  apply read_response_inv in Hread. destruct Hread as (Hlen & _).
  rewrite length_make_frame in Hlen.
  destruct payload; [congruence|]. cbn [length] in *. lia.
Qed.

Lemma send_command_payload_bounds_witness :
  (1 <= length [x00] <= 122)%nat.
Proof.
  apply (send_command_payload_bounds x0f []
           (mkPort [] [] [Received (make_frame DEVICE_ADDR x8f [x00])])
           (mkPort [make_frame DEVICE_ADDR x0f []] [] []) [x00]).
  vm_compute. reflexivity.
Defined.

(** X8: [send_command] returns a payload exactly when the write raised
    no error, the one read that follows delivered the frame that
    [make_frame] builds for the device address, a command byte with the
    low six bits of the command sent and that payload, and the payload
    is not empty. *)
Theorem send_command_succeeds_iff :
  forall (cmd : byte) (data : list byte) (p p' : Port) (payload : list byte),
    send_command cmd data p = (Some payload, p') <->
    exists (p1 : Port) (c : byte),
      asio_write (make_frame DEVICE_ADDR cmd data) p = (false, p1)
      /\ read_response p1 = (Some (make_frame DEVICE_ADDR c payload), p')
      /\ Z.land #c 0x3F = #cmd
      /\ payload <> [].
Proof.
  intros cmd data p p' payload. split; [apply send_command_inv|].
  intros (p1 & c & Hw & Hread & Hc & Hne).
  rewrite send_command_steps, Hw, Hread.
  rewrite validate_make_frame_flagged; try assumption.
  - destruct payload; [congruence | reflexivity].
  - apply read_response_inv in Hread. destruct Hread as (Hlen & _).
    rewrite length_make_frame in Hlen. lia.
Qed.

(** X9: when the write raises an error [send_command] fails without
    reading: what the line holds stays there for the next read. *)
Theorem send_command_write_error :
  forall (cmd : byte) (data : list byte) (p : Port) (rest : list bool),
    write_errors p = true :: rest ->
    send_command cmd data p
    = (None, mkPort (written p ++ [make_frame DEVICE_ADDR cmd data]) rest (incoming p)).
Proof.
  intros cmd data p rest Hw.
  rewrite send_command_steps. unfold asio_write. rewrite Hw. reflexivity.
Qed.

Lemma send_command_write_error_witness :
  send_command x01 [] (mkPort [] [true] [Received (make_frame DEVICE_ADDR x81 [x00])])
  = (None, mkPort ([] ++ [make_frame DEVICE_ADDR x01 []]) []
             [Received (make_frame DEVICE_ADDR x81 [x00])]).
Proof.
  apply (send_command_write_error x01 []
           (mkPort [] [true] [Received (make_frame DEVICE_ADDR x81 [x00])]) []).
  reflexivity.
Defined.

(** * Further properties of the command catalog *)

Lemma read_response_fits p buf rest :
  incoming p = Received buf :: rest ->
  (6 <= length buf <= 128)%nat ->
  read_response p = (Some buf, mkPort (written p) (write_errors p) rest).
Proof.
  intros Hin Hlen. unfold read_response, bind, read_some, ret. rewrite Hin.
  rewrite firstn_all2, skipn_all2 by lia. cbv beta iota zeta. cbn [orb].
  replace (size buf <? 6) with false by (symmetry; apply Z.ltb_ge; unfold size; lia).
  reflexivity.
Qed.

(** The exchange when the write raises no error and the line holds a
    well-formed reply that fits the read buffer. *)
Lemma send_command_reply cmd data p c payload rest :
  hd false (write_errors p) = false ->
  incoming p = Received (make_frame DEVICE_ADDR c payload) :: rest ->
  Z.land #c 0x3F = #cmd ->
  (1 <= length payload <= 122)%nat ->
  send_command cmd data p
  = (Some payload,
     mkPort (written p ++ [make_frame DEVICE_ADDR cmd data]) (tl (write_errors p)) rest).
Proof.
  intros Hw Hin Hc Hlen. rewrite send_command_steps.
  assert (Hwrite : asio_write (make_frame DEVICE_ADDR cmd data) p
                   = (false, mkPort (written p ++ [make_frame DEVICE_ADDR cmd data])
                               (tl (write_errors p)) (incoming p))).
  { unfold asio_write. destruct (write_errors p) as [|e we]; cbn [hd tl] in *;
      [reflexivity | now subst e]. }
  rewrite Hwrite.
  rewrite (read_response_fits _ (make_frame DEVICE_ADDR c payload) rest);
    [| exact Hin | rewrite length_make_frame; lia].
  cbn [written write_errors].
  rewrite validate_make_frame_flagged by (assumption || lia).
  destruct payload; [cbn [length] in Hlen; lia | reflexivity].
Qed.

(** X10: every frame a command of the catalog hands to the port is one
    the codec accepts for the command's own opcode, with the payload
    laid out by the catalog, provided a USB string has at most 253
    characters and a parameter block its 50 bytes; no such payload
    exceeds 255 bytes. *)
Theorem catalog_frames_are_valid :
  forall (c : MutatingCommand) (op : byte) (data : list byte) (p : Port),
    request c = Some (op, data) ->
    (forall type str, c = SetUsbString type str -> (length str <= 253)%nat) ->
    (forall config, c = SetParameterBlock config -> length (raw_bytes config) = 50%nat) ->
    (length data <= 255)%nat
    /\ written (snd (run c p)) = written p ++ [make_frame DEVICE_ADDR op data]
    /\ validate_response (make_frame DEVICE_ADDR op data) op = Some data.
Proof.
  intros c op data p Hreq Hstr Hcfg.
  assert (Hlen : (length data <= 255)%nat /\ Z.land #op 0x3F = #op).
  { destruct c; cbn [request] in Hreq;
      try (injection Hreq as <- <-; cbn [length]; split; [lia | reflexivity]).
    - destruct (Nat.leb_spec (length data0) 64); [|discriminate].
      injection Hreq as <- <-. split; [lia | reflexivity].
    - injection Hreq as <- <-. specialize (Hstr _ _ eq_refl).
      cbn [length]. split; [lia | reflexivity].
    - injection Hreq as <- <-. specialize (Hcfg _ eq_refl).
      split; [lia | reflexivity]. }
  destruct Hlen as [Hlen Hop]. split; [exact Hlen|]. split.
  - rewrite run_request, Hreq. cbn [snd]. apply send_command_written.
  - now apply validate_make_frame_flagged.
Qed.

Lemma catalog_frames_are_valid_witness :
  (length (x00 :: uint8 (size [x43; x48]) :: [x43; x48]) <= 255)%nat
  /\ written (snd (run (SetUsbString Manufacturer [x43; x48]) (mkPort [] [] [])))
     = [] ++ [make_frame DEVICE_ADDR x0b (x00 :: uint8 (size [x43; x48]) :: [x43; x48])]
  /\ validate_response
       (make_frame DEVICE_ADDR x0b (x00 :: uint8 (size [x43; x48]) :: [x43; x48])) x0b
     = Some (x00 :: uint8 (size [x43; x48]) :: [x43; x48]).
Proof.
  apply (catalog_frames_are_valid (SetUsbString Manufacturer [x43; x48]) x0b
           (x00 :: uint8 (size [x43; x48]) :: [x43; x48]) (mkPort [] [] [])).
  - reflexivity.
  - intros type str [= _ <-]. simpl. lia.
  - discriminate.
Defined.

(** X11: [send_kb_media_data] sends under opcode 0x03 the report id and
    then the 16-bit key code, low byte first. *)
Theorem media_key_payload :
  forall (report_id : byte) (keycode : Z) (p : Port),
    0 <= keycode < 65536 ->
    exists lo hi : byte,
      written (snd (send_kb_media_data report_id keycode p))
      = written p ++ [make_frame DEVICE_ADDR x03 [report_id; lo; hi]]
      /\ #lo + 256 * #hi = keycode.
Proof.
  intros report_id keycode p Hk.
  unfold send_kb_media_data. cbv zeta. rewrite exchange_then_status. cbn [snd].
  rewrite send_command_written.
  do 2 eexists. split; [reflexivity|]. now apply little_endian_16.
Qed.

Lemma media_key_payload_witness :
  exists lo hi : byte,
    written (snd (send_kb_media_data x02 0x00E9 (mkPort [] [] [])))
    = [] ++ [make_frame DEVICE_ADDR x03 [x02; lo; hi]]
    /\ #lo + 256 * #hi = 0x00E9.
Proof.
  apply (media_key_payload x02 0x00E9 (mkPort [] [] [])). lia.
Defined.

(** X12: [send_ms_rel_data] sends under opcode 0x05 the report id 0x01,
    the button byte and the X, Y and wheel deltas, each as one signed
    byte that reads back as the value given. *)
Theorem rel_mouse_report_payload :
  forall (button : MouseButton) (x_delta y_delta wheel : Z) (p : Port),
    -128 <= x_delta < 128 -> -128 <= y_delta < 128 -> -128 <= wheel < 128 ->
    exists dx dy w : byte,
      written (snd (send_ms_rel_data button x_delta y_delta wheel p))
      = written p ++ [make_frame DEVICE_ADDR x05 [x01; button; dx; dy; w]]
      /\ int8 dx = x_delta /\ int8 dy = y_delta /\ int8 w = wheel.
Proof.
  intros button x_delta y_delta wheel p Hx Hy Hw.
  unfold send_ms_rel_data. cbv zeta. rewrite exchange_then_status. cbn [snd].
  rewrite send_command_written. unfold pack_mouse_button.
  do 3 eexists. split; [reflexivity|]. auto using int8_uint8.
Qed.

Lemma rel_mouse_report_payload_witness :
  exists dx dy w : byte,
    written (snd (send_ms_rel_data Left 100 (-50) (-3) (mkPort [] [] [])))
    = [] ++ [make_frame DEVICE_ADDR x05 [x01; Left; dx; dy; w]]
    /\ int8 dx = 100 /\ int8 dy = -50 /\ int8 w = -3.
Proof.
  apply (rel_mouse_report_payload Left 100 (-50) (-3) (mkPort [] [] [])); lia.
Defined.

(** X13: [mouse_down], [mouse_up], [move_mouse] and [scroll_wheel] are
    relative mouse reports with every other field zero, so moving and
    scrolling send the button byte 0x00; [hover] makes the same exchange
    as [mouse_up]; [move_to_absolute] is the absolute mouse report with
    no button, no wheel movement and both coordinates clamped to 4095. *)
Theorem gestures_are_reports :
  forall (button : MouseButton) (x_delta y_delta wheel_delta x y duration_ms : Z)
         (p : Port),
    mouse_down button p = send_ms_rel_data button 0 0 0 p
    /\ mouse_up button p = send_ms_rel_data MouseButton_None 0 0 0 p
    /\ move_mouse x_delta y_delta p = send_ms_rel_data MouseButton_None x_delta y_delta 0 p
    /\ scroll_wheel wheel_delta p = send_ms_rel_data MouseButton_None 0 0 wheel_delta p
    /\ hover duration_ms p = mouse_up button p
    /\ move_to_absolute x y p
       = send_ms_abs_data MouseButton_None (Z.min x 4095) (Z.min y 4095) 0 p.
Proof.
  intros button x_delta y_delta wheel_delta x y duration_ms p.
  repeat split; try reflexivity.
  unfold hover, mouse_up, bind, sleep_for, ret. cbv zeta.
  destruct (send_command x05 [x01; x00; x00; x00; x00] p) as [r p'].
  destruct (is_success r); reflexivity.
Qed.

(** X14: [get_para_config] returns a parameter block only for a payload
    of exactly 50 bytes and fails for any other length; a block it
    returned is sent back by [set_para_config] unchanged, in a frame of
    56 bytes under opcode 0x09. *)
Theorem para_config_read_write_back :
  forall (p p' : Port),
    (forall config,
        get_para_config p = (Some config, p') ->
        length (raw_bytes config) = 50%nat
        /\ send_command x08 [] p = (Some (raw_bytes config), p')
        /\ written (snd (set_para_config config p'))
           = written p' ++ [make_frame DEVICE_ADDR x09 (raw_bytes config)]
        /\ length (make_frame DEVICE_ADDR x09 (raw_bytes config)) = 56%nat)
    /\ (forall payload,
        send_command x08 [] p = (Some payload, p') ->
        length payload <> 50%nat ->
        get_para_config p = (None, p')).
Proof.
  intros p p'. split.
  - intros config. unfold get_para_config, bind, ret.
    destruct (send_command x08 [] p) as [[resp|] p1]; [|discriminate].
    destruct (Z.eqb_spec (size resp) 50) as [Hsz|]; [|discriminate].
    cbn [negb]. intros [= <- <-]. cbn [raw_bytes].
    assert (Hlen : length resp = 50%nat) by (unfold size in Hsz; lia).
    repeat split; try assumption.
    + unfold set_para_config. rewrite exchange_then_status. cbn [snd raw_bytes].
      apply send_command_written.
    + rewrite length_make_frame, Hlen. reflexivity.
  - intros payload Hsend Hlen. unfold get_para_config, bind, ret. rewrite Hsend.
    destruct (Z.eqb_spec (size payload) 50) as [Hsz|]; [|reflexivity].
    unfold size in Hsz. lia.
Qed.

Lemma para_config_read_write_back_witness :
  (length (repeat x11 50) = 50%nat
   /\ send_command x08 [] (mkPort [] [] [Received (make_frame DEVICE_ADDR x88 (repeat x11 50))])
      = (Some (repeat x11 50), mkPort [make_frame DEVICE_ADDR x08 []] [] [])
   /\ written (snd (set_para_config (mkParaConfig (repeat x11 50))
                      (mkPort [make_frame DEVICE_ADDR x08 []] [] [])))
      = [make_frame DEVICE_ADDR x08 []] ++ [make_frame DEVICE_ADDR x09 (repeat x11 50)]
   /\ length (make_frame DEVICE_ADDR x09 (repeat x11 50)) = 56%nat)
  /\ get_para_config (mkPort [] [] [Received (make_frame DEVICE_ADDR x88 [xe3])])
     = (None, mkPort [make_frame DEVICE_ADDR x08 []] [] []).
Proof.
  split.
  - apply (proj1 (para_config_read_write_back
                    (mkPort [] [] [Received (make_frame DEVICE_ADDR x88 (repeat x11 50))])
                    (mkPort [make_frame DEVICE_ADDR x08 []] [] []))
             (mkParaConfig (repeat x11 50))).
    vm_compute. reflexivity.
  - apply (proj2 (para_config_read_write_back
                    (mkPort [] [] [Received (make_frame DEVICE_ADDR x88 [xe3])])
                    (mkPort [make_frame DEVICE_ADDR x08 []] [] []))
             [xe3]).
    + vm_compute. reflexivity.
    + simpl. lia.
Defined.

(** X15: when the write raises no error and the line holds a
    well-formed reply for opcode 0x0A with a payload of 1 to 122 bytes,
    [get_usb_string] returns that whole payload as the string, whatever
    the two high bits of the reply's command byte and with no byte of
    the payload removed; whatever [get_usb_string] returns has 1 to 122
    characters. *)
Theorem get_usb_string_returns_payload :
  forall (type : UsbStringType) (p : Port),
    (forall c payload rest,
        hd false (write_errors p) = false ->
        incoming p = Received (make_frame DEVICE_ADDR c payload) :: rest ->
        Z.land #c 0x3F = 0x0A ->
        (1 <= length payload <= 122)%nat ->
        get_usb_string type p
        = (Some {| content := payload |},
           mkPort (written p ++ [make_frame DEVICE_ADDR x0a [type]])
             (tl (write_errors p)) rest))
    /\ (forall desc p',
        get_usb_string type p = (Some desc, p') ->
        (1 <= length (content desc) <= 122)%nat).
Proof.
  intros type p. split.
  - intros c payload rest Hw Hin Hc Hlen. unfold get_usb_string, bind, ret.
    now rewrite (send_command_reply x0a [type] p c payload rest).
  - intros desc p'. unfold get_usb_string, bind, ret.
    destruct (send_command x0a [type] p) as [[resp|] p1] eqn:Hsend; [|discriminate].
    intros [= <- <-]. cbn [content].
    destruct (send_command_inv _ _ _ _ _ Hsend) as (p0 & c & _ & Hread & _ & Hne).
    apply read_response_inv in Hread. destruct Hread as (Hlen & _).
    rewrite length_make_frame in Hlen.
    destruct resp; [congruence|]. cbn [length] in *. lia.
Qed.

Lemma get_usb_string_returns_payload_witness :
  get_usb_string Product (mkPort [] [] [Received (make_frame DEVICE_ADDR xca [xe5])])
  = (Some {| content := [xe5] |},
     mkPort ([] ++ [make_frame DEVICE_ADDR x0a [Product]]) (tl []) []).
Proof.
  apply (proj1 (get_usb_string_returns_payload Product
                  (mkPort [] [] [Received (make_frame DEVICE_ADDR xca [xe5])]))
           xca [xe5] []).
  - reflexivity.
  - reflexivity.
  - reflexivity.
  - simpl. lia.
Defined.

(** X16: for a string of at most 253 characters [set_usb_string] sends
    under opcode 0x0B the type, the exact length in one byte and the
    characters, in a frame the codec accepts; from 254 characters on
    the frame it sends is one the codec rejects for every command. *)
Theorem set_usb_string_length_limit :
  forall (type : UsbStringType) (str : list byte) (p : Port),
    (exists len : byte,
        written (snd (set_usb_string type str p))
        = written p ++ [make_frame DEVICE_ADDR x0b (type :: len :: str)]
        /\ #len = Z.of_nat (length str) mod 256)
    /\ ((length str <= 253)%nat ->
        validate_response (make_frame DEVICE_ADDR x0b (type :: uint8 (size str) :: str)) x0b
        = Some (type :: uint8 (size str) :: str)
        /\ #(uint8 (size str)) = Z.of_nat (length str))
    /\ ((254 <= length str)%nat ->
        forall expected_cmd,
          validate_response (make_frame DEVICE_ADDR x0b (type :: uint8 (size str) :: str))
            expected_cmd = None).
Proof.
  intros type str p. split; [|split].
  - unfold set_usb_string. cbv zeta. rewrite exchange_then_status. cbn [snd app].
    rewrite send_command_written. eexists. split; [reflexivity|].
    apply uint8_unsigned.
  - intros Hlen. split.
    + apply validate_make_frame_flagged; [reflexivity | cbn [length]; lia].
    + apply size_le_255. lia.
  - intros Hlen expected_cmd. apply validate_oversize_frame. cbn [length]. lia.
Qed.

Lemma set_usb_string_length_limit_witness :
  (validate_response (make_frame DEVICE_ADDR x0b (x01 :: uint8 (size [x43; x48]) :: [x43; x48])) x0b
   = Some (x01 :: uint8 (size [x43; x48]) :: [x43; x48])
   /\ #(uint8 (size [x43; x48])) = Z.of_nat (length [x43; x48]))
  /\ (forall expected_cmd,
        validate_response
          (make_frame DEVICE_ADDR x0b (x01 :: uint8 (size (repeat x41 254)) :: repeat x41 254))
          expected_cmd = None).
Proof.
  split.
  - apply (proj1 (proj2 (set_usb_string_length_limit x01 [x43; x48] (mkPort [] [] [])))).
    simpl. lia.
  - apply (proj2 (proj2 (set_usb_string_length_limit x01 (repeat x41 254) (mkPort [] [] [])))).
    rewrite repeat_length. lia.
Defined.

Lemma major_nibble_le (b : byte) : Z.land (Z.shiftr #b 4) (0x0F - 2) <= 13.
Proof. destruct b; vm_compute; discriminate. Qed.

(** X17: a [DeviceInfo] that [get_info] returns never has bit 1 of the
    major version set, so the major version is never 2, 3, 6 or 7 and
    at most 13; the minor version is at most 15; the payload it was
    decoded from had 8 to 122 bytes. *)
Theorem get_info_version_range :
  forall (p p' : Port) (info : DeviceInfo),
    get_info p = (Some info, p') ->
    Z.testbit #(version_major info) 1 = false
    /\ #(version_major info) <= 13
    /\ #(version_minor info) <= 15
    /\ exists payload,
        send_command x01 [] p = (Some payload, p')
        /\ (8 <= length payload <= 122)%nat.
Proof.
  intros p p' info. unfold get_info, bind, ret.
  destruct (send_command x01 [] p) as [[response|] p1] eqn:Hsend; [|discriminate].
  destruct (Z.ltb_spec (size response) 8) as [|Hsz]; [discriminate|].
  intros [= <- <-]. cbn [version_major version_minor].
  rewrite major_nibble_fits, minor_nibble.
  split; [|split; [|split]].
  - rewrite Z.land_spec. change (0x0F - 2) with 13.
    change (Z.testbit 13 1) with false. apply andb_false_r.
  - apply major_nibble_le.
  - pose proof (Z.mod_pos_bound #(at_ response 0) 16). lia.
  - exists response. split; [reflexivity|].
    pose proof (send_command_inv _ _ _ _ _ Hsend) as (p0 & c & _ & Hread & _ & _).
    apply read_response_inv in Hread. destruct Hread as (Hlen & _).
    rewrite length_make_frame in Hlen. unfold size in Hsz. lia.
Qed.

Lemma get_info_version_range_witness :
  exists info,
    get_info (mkPort [] [] [Received (make_frame DEVICE_ADDR x81
                                        [x30; x01; x00; x00; x00; x00; x00; x00])])
    = (Some info, mkPort [make_frame DEVICE_ADDR x01 []] [] [])
    /\ Z.testbit #(version_major info) 1 = false
    /\ #(version_major info) <= 13.
Proof.
  eexists. split; [vm_compute; reflexivity|].
  pose proof (get_info_version_range
                (mkPort [] [] [Received (make_frame DEVICE_ADDR x81
                                           [x30; x01; x00; x00; x00; x00; x00; x00])])
                (mkPort [make_frame DEVICE_ADDR x01 []] [] [])
                _ ltac:(vm_compute; reflexivity)) as (Hbit & Hle & _).
  split; [exact Hbit | exact Hle].
Defined.

(** * Properties of the mouse gestures *)

Section Sequencing.

Lemma sends_one cmd data :
  sends_in_order (r <- send_command cmd data ;; ret (is_success r))
    [make_frame DEVICE_ADDR cmd data].
Proof.
  intros p. exists 1%nat. rewrite exchange_then_status. cbn [fst snd length firstn].
  rewrite send_command_written. repeat split; lia.
Qed.

Lemma sends_then c1 c2 s1 s2 :
  sends_in_order c1 s1 ->
  sends_in_order c2 s2 ->
  sends_in_order (ok <- c1 ;; if negb ok then ret false else c2) (s1 ++ s2).
Proof.
  intros H1 H2 p. unfold bind, ret.
  destruct (H1 p) as (n1 & Hn1 & Hw1 & Hok1).
  destruct (c1 p) as [[|] p1]; cbn [fst snd negb] in *.
  - specialize (Hok1 eq_refl). subst n1.
    destruct (H2 p1) as (n2 & Hn2 & Hw2 & Hok2).
    exists (length s1 + n2)%nat. rewrite length_app. split; [lia|]. split.
    + rewrite Hw2, Hw1, firstn_all, firstn_app_2, app_assoc. reflexivity.
    + intros Htrue. specialize (Hok2 Htrue). lia.
  - exists n1. rewrite length_app. split; [lia|]. split; [|discriminate].
    rewrite Hw1, firstn_app.
    replace (n1 - length s1)%nat with 0%nat by lia.
    cbn [firstn]. now rewrite app_nil_r.
Qed.

Lemma sends_then_true c s :
  sends_in_order c s ->
  sends_in_order (ok <- c ;; if negb ok then ret false else ret true) s.
Proof.
  intros H p. unfold bind, ret.
  destruct (H p) as (n & Hn & Hw & Hok).
  destruct (c p) as [[|] p1]; cbn [fst snd negb] in *; exists n; auto.
Qed.

End Sequencing.

Lemma sends_mouse_down button :
  sends_in_order (mouse_down button) [rel_frame button 0 0 0].
Proof. exact (sends_one x05 [x01; button; x00; x00; x00]). Qed.

Lemma sends_mouse_up button :
  sends_in_order (mouse_up button) [rel_frame x00 0 0 0].
Proof. exact (sends_one x05 [x01; x00; x00; x00; x00]). Qed.

Lemma sends_move_mouse x_delta y_delta :
  sends_in_order (move_mouse x_delta y_delta) [rel_frame x00 x_delta y_delta 0].
Proof. exact (sends_one x05 [x01; x00; uint8 x_delta; uint8 y_delta; x00]). Qed.

Lemma sends_click button hold_time_ms :
  sends_in_order (click button hold_time_ms)
    [rel_frame button 0 0 0; rel_frame x00 0 0 0].
Proof.
  exact (sends_then _ _ _ _ (sends_mouse_down button) (sends_mouse_up button)).
Qed.

(** X18: [click] sends the press report for its button and then the
    report that releases every button; [double_click] sends this pair
    twice and [right_click_menu] sends it once for the right button.
    Each stops early only with the result [false]. *)
Theorem click_sequences :
  forall (button : MouseButton) (click_interval_ms hold_time_ms wait_time_ms : Z),
    sends_in_order (click button hold_time_ms)
      [rel_frame button 0 0 0; rel_frame x00 0 0 0]
    /\ sends_in_order (double_click button click_interval_ms hold_time_ms)
         [rel_frame button 0 0 0; rel_frame x00 0 0 0;
          rel_frame button 0 0 0; rel_frame x00 0 0 0]
    /\ sends_in_order (right_click_menu wait_time_ms)
         [rel_frame Right 0 0 0; rel_frame x00 0 0 0].
Proof.
  intros button click_interval_ms hold_time_ms wait_time_ms. split; [|split].
  - apply sends_click.
  - exact (sends_then _ _ _ _ (sends_click button hold_time_ms)
             (sends_click button hold_time_ms)).
  - exact (sends_then_true _ _ (sends_click Right 50)).
Qed.

(** X19: [drag] sends the press report for its button, then the
    movement report, which carries the button byte 0x00, then the
    release report. *)
Theorem drag_sequence :
  forall (button : MouseButton) (x_delta y_delta hold_time_ms : Z),
    sends_in_order (drag button x_delta y_delta hold_time_ms)
      [rel_frame button 0 0 0; rel_frame x00 x_delta y_delta 0; rel_frame x00 0 0 0].
Proof.
  intros button x_delta y_delta hold_time_ms.
  exact (sends_then _ _ [_] [_; _] (sends_mouse_down button)
           (sends_then _ _ [_] [_] (sends_move_mouse x_delta y_delta)
              (sends_mouse_up button))).
Qed.

Lemma abs_bytes (x : Z) :
  0 <= x < 65536 ->
  uint8 (Z.land x 0xFF) = uint8 (x mod 256)
  /\ uint8 (Z.land (Z.shiftr x 8) 0xFF) = uint8 (x / 256).
Proof.
  intros Hx. change 0xFF with (Z.ones 8).
  rewrite !Z.land_ones, Z.shiftr_div_pow2 by lia. change (2 ^ 8) with 256.
  split; [reflexivity|]. f_equal. apply Z.mod_small.
  Z.div_mod_to_equations. lia.
Qed.

Lemma sends_move_to_absolute x y :
  0 <= x < 65536 -> 0 <= y < 65536 ->
  sends_in_order (move_to_absolute x y)
    [abs_frame x00 (Z.min x 4095) (Z.min y 4095) 0].
Proof.
  intros Hx Hy. unfold abs_frame.
  destruct (abs_bytes (Z.min x 4095)) as [<- <-]; [lia|].
  destruct (abs_bytes (Z.min y 4095)) as [<- <-]; [lia|].
  exact (sends_one x04 _).
Qed.

(** X20: [click_at_absolute] sends the absolute report for the point
    clamped to 4095, then the press and release reports of [click];
    [drag_absolute], and [drag_select] for the left button, send the
    absolute report of the start point, the press report, the absolute
    report of the end point and the release report; the absolute
    reports carry the button byte 0x00. *)
Theorem absolute_gesture_sequences :
  forall (x y x2 y2 : Z) (button : MouseButton) (hold_time_ms : Z),
    0 <= x < 65536 -> 0 <= y < 65536 -> 0 <= x2 < 65536 -> 0 <= y2 < 65536 ->
    sends_in_order (click_at_absolute x y button hold_time_ms)
      [abs_frame x00 (Z.min x 4095) (Z.min y 4095) 0;
       rel_frame button 0 0 0; rel_frame x00 0 0 0]
    /\ sends_in_order (drag_absolute x y x2 y2 button)
         [abs_frame x00 (Z.min x 4095) (Z.min y 4095) 0;
          rel_frame button 0 0 0;
          abs_frame x00 (Z.min x2 4095) (Z.min y2 4095) 0;
          rel_frame x00 0 0 0]
    /\ sends_in_order (drag_select x y x2 y2)
         [abs_frame x00 (Z.min x 4095) (Z.min y 4095) 0;
          rel_frame Left 0 0 0;
          abs_frame x00 (Z.min x2 4095) (Z.min y2 4095) 0;
          rel_frame x00 0 0 0].
Proof.
  intros x y x2 y2 button hold_time_ms Hx Hy Hx2 Hy2.
  assert (Hdrag : forall b,
             sends_in_order (drag_absolute x y x2 y2 b)
               [abs_frame x00 (Z.min x 4095) (Z.min y 4095) 0;
                rel_frame b 0 0 0;
                abs_frame x00 (Z.min x2 4095) (Z.min y2 4095) 0;
                rel_frame x00 0 0 0]).
  { intros b.
    exact (sends_then _ _ [_] [_; _; _] (sends_move_to_absolute x y Hx Hy)
             (sends_then _ _ [_] [_; _] (sends_mouse_down b)
                (sends_then _ _ [_] [_] (sends_move_to_absolute x2 y2 Hx2 Hy2)
                   (sends_mouse_up b)))). }
  split; [|split].
  - exact (sends_then _ _ [_] [_; _] (sends_move_to_absolute x y Hx Hy)
             (sends_click button hold_time_ms)).
  - apply Hdrag.
  - apply Hdrag.
Qed.

Lemma absolute_gesture_sequences_witness :
  sends_in_order (click_at_absolute 5000 17 Left 50)
    [abs_frame x00 (Z.min 5000 4095) (Z.min 17 4095) 0;
     rel_frame Left 0 0 0; rel_frame x00 0 0 0].
Proof.
  apply (absolute_gesture_sequences 5000 17 0 0 Left 50); lia.
Defined.

(** X21: a gesture stops at the first report that is not acknowledged:
    when the press fails [click] returns [false] having sent the press
    report only, and when the press succeeds and the movement fails
    [drag] returns [false] having sent the press and movement reports
    and no release report. *)
Theorem gestures_stop_at_first_failure :
  forall (button : MouseButton) (x_delta y_delta hold_time_ms : Z) (p : Port),
    (fst (mouse_down button p) = false ->
     click button hold_time_ms p = (false, snd (mouse_down button p))
     /\ written (snd (click button hold_time_ms p))
        = written p ++ [rel_frame button 0 0 0])
    /\ (fst (mouse_down button p) = true ->
        fst (move_mouse x_delta y_delta (snd (mouse_down button p))) = false ->
        fst (drag button x_delta y_delta hold_time_ms p) = false
        /\ written (snd (drag button x_delta y_delta hold_time_ms p))
           = written p ++ [rel_frame button 0 0 0; rel_frame x00 x_delta y_delta 0]).
Proof.
  intros button x_delta y_delta hold_time_ms p.
  pose proof (sends_mouse_down button p) as (n & Hn & Hdown & _).
  cbn [length] in Hn. assert (n = 1%nat) by lia. subst n. cbn [firstn] in Hdown.
  split.
  - intros Hfail. unfold click, bind, sleep_for, ret.
    destruct (mouse_down button p) as [ok p1]. cbn [fst snd] in *. subst ok.
    cbn [negb fst snd]. split; [reflexivity | exact Hdown].
  - intros Hok Hfail. unfold drag, bind, sleep_for, ret.
    destruct (mouse_down button p) as [ok p1]. cbn [fst snd] in *. subst ok.
    cbn [negb]. cbv beta iota.
    pose proof (sends_move_mouse x_delta y_delta p1) as (m & Hm & Hmove & _).
    cbn [length] in Hm. assert (m = 1%nat) by lia. subst m. cbn [firstn] in Hmove.
    destruct (move_mouse x_delta y_delta p1) as [ok p2]. cbn [fst snd] in *. subst ok.
    cbn [negb fst snd]. split; [reflexivity|].
    rewrite Hmove, Hdown, <- app_assoc. reflexivity.
Qed.

Lemma gestures_stop_at_first_failure_witness :
  (click Left 50 (mkPort [] [] []) = (false, snd (mouse_down Left (mkPort [] [] [])))
   /\ written (snd (click Left 50 (mkPort [] [] []))) = [] ++ [rel_frame Left 0 0 0])
  /\ (fst (drag Left 10 10 100 (mkPort [] [] [Received (make_frame DEVICE_ADDR x85 [x00])]))
      = false
      /\ written (snd (drag Left 10 10 100
                         (mkPort [] [] [Received (make_frame DEVICE_ADDR x85 [x00])])))
         = [] ++ [rel_frame Left 0 0 0; rel_frame x00 10 10 0]).
Proof.
  split.
  - apply (proj1 (gestures_stop_at_first_failure Left 0 0 50 (mkPort [] [] []))).
    vm_compute. reflexivity.
  - apply (proj2 (gestures_stop_at_first_failure Left 10 10 100
                    (mkPort [] [] [Received (make_frame DEVICE_ADDR x85 [x00])]))).
    + vm_compute. reflexivity.
    + vm_compute. reflexivity.
Defined.

(** * Further properties of the coordinate mapper *)

(** X22: for every screen of width and height at least 1 the mapper
    returns a pair, both coordinates lie between 0 and 4095 whatever
    the input, and the origin maps to the origin. *)
Theorem convert_screen_to_absolute_in_range :
  forall (x y w h : Z),
    1 <= w -> 1 <= h ->
    convert_screen_to_absolute 0 0 w h = Some (0, 0)
    /\ exists ax ay,
        convert_screen_to_absolute x y w h = Some (ax, ay)
        /\ 0 <= ax <= 4095 /\ 0 <= ay <= 4095.
Proof.
  intros x y w h Hw Hh. now apply convert_origin_and_bound.
Qed.

Lemma convert_screen_to_absolute_in_range_witness :
  convert_screen_to_absolute 0 0 1920 1080 = Some (0, 0)
  /\ exists ax ay,
      convert_screen_to_absolute 65535 65535 1920 1080 = Some (ax, ay)
      /\ 0 <= ax <= 4095 /\ 0 <= ay <= 4095.
Proof.
  apply (convert_screen_to_absolute_in_range 65535 65535 1920 1080); lia.
Defined.

(** X23: a point on the screen, 0 <= x < width and 0 <= y < height, maps
    to the rounded-down scalings x * 4095 / width and y * 4095 / height,
    which stay below 4095: no pixel of the screen reaches the largest
    device coordinate, which is the image of x = width and y = height. *)
Theorem convert_screen_to_absolute_on_screen :
  forall (x y w h : Z),
    0 <= x < w -> 0 <= y < h -> w < 65536 -> h < 65536 ->
    convert_screen_to_absolute x y w h = Some (x * 4095 / w, y * 4095 / h)
    /\ x * 4095 / w < 4095
    /\ y * 4095 / h < 4095
    /\ convert_screen_to_absolute w h w h = Some (4095, 4095).
Proof.
  intros x y w h Hx Hy Hw Hh.
  assert (Hqx : x * 4095 / w < 4095) by (apply Z.div_lt_upper_bound; nia).
  assert (Hqy : y * 4095 / h < 4095) by (apply Z.div_lt_upper_bound; nia).
  assert (Hw4 : w * 4095 / w = 4095) by (rewrite Z.mul_comm; apply Z.div_mul; lia).
  assert (Hh4 : h * 4095 / h = 4095) by (rewrite Z.mul_comm; apply Z.div_mul; lia).
  rewrite !convert_axes by lia. rewrite !axis_exact by lia.
  rewrite Hw4, Hh4, !Z.min_l by lia.
  repeat split; assumption.
Qed.

Lemma convert_screen_to_absolute_on_screen_witness :
  convert_screen_to_absolute 1919 1079 1920 1080
  = Some (1919 * 4095 / 1920, 1079 * 4095 / 1080)
  /\ 1919 * 4095 / 1920 < 4095
  /\ 1079 * 4095 / 1080 < 4095
  /\ convert_screen_to_absolute 1920 1080 1920 1080 = Some (4095, 4095).
Proof.
  apply (convert_screen_to_absolute_on_screen 1919 1079 1920 1080); lia.
Defined.

(** X24: the mapping is monotone in each coordinate as long as the
    coordinates stay within sixteen times the width and the height. *)
Theorem convert_screen_to_absolute_monotone_near_screen :
  forall (x1 y1 x2 y2 w h : Z),
    1 <= w -> 1 <= h ->
    0 <= x1 <= x2 -> x2 <= 16 * w -> x2 < 65536 ->
    0 <= y1 <= y2 -> y2 <= 16 * h -> y2 < 65536 ->
    exists ax1 ay1 ax2 ay2,
      convert_screen_to_absolute x1 y1 w h = Some (ax1, ay1)
      /\ convert_screen_to_absolute x2 y2 w h = Some (ax2, ay2)
      /\ ax1 <= ax2 /\ ay1 <= ay2.
Proof.
  intros x1 y1 x2 y2 w h. apply convert_monotone_near_screen.
Qed.

Lemma convert_screen_to_absolute_monotone_near_screen_witness :
  exists ax1 ay1 ax2 ay2,
    convert_screen_to_absolute 100 200 1920 1080 = Some (ax1, ay1)
    /\ convert_screen_to_absolute 30720 17280 1920 1080 = Some (ax2, ay2)
    /\ ax1 <= ax2 /\ ay1 <= ay2.
Proof.
  apply (convert_screen_to_absolute_monotone_near_screen 100 200 30720 17280 1920 1080); lia.
Defined.

(** X25: coordinates that come out of the mapper go out unchanged:
    [move_to_absolute] on them is the absolute report of exactly these
    coordinates, its clamp changing nothing. *)
Theorem move_to_converted_point :
  forall (x y w h ax ay : Z) (p : Port),
    1 <= w -> 1 <= h ->
    convert_screen_to_absolute x y w h = Some (ax, ay) ->
    move_to_absolute ax ay p = send_ms_abs_data MouseButton_None ax ay 0 p
    /\ exists xl xh yl yh,
        written (snd (move_to_absolute ax ay p))
        = written p ++ [make_frame DEVICE_ADDR x04 [x02; x00; xl; xh; yl; yh; x00]]
        /\ #xl + 256 * #xh = ax /\ #yl + 256 * #yh = ay.
Proof.
  intros x y w h ax ay p Hw Hh Hconv.
  rewrite convert_axes in Hconv by lia. injection Hconv as <- <-.
  pose proof (axis_bounded x w) as Hax. pose proof (axis_bounded y h) as Hay.
  assert (Heq : move_to_absolute (axis x w) (axis y h) p
                = send_ms_abs_data MouseButton_None (axis x w) (axis y h) 0 p).
  { unfold move_to_absolute. change (uint16 4095) with 4095.
    rewrite !Z.min_l by lia. reflexivity. }
  split; [exact Heq|]. rewrite Heq.
  unfold send_ms_abs_data. cbv zeta. rewrite exchange_then_status. cbn [snd].
  rewrite send_command_written. cbv [repeat store pack_mouse_button MouseButton_None].
  do 4 eexists. split; [reflexivity|].
  split; apply little_endian_16; lia.
Qed.

Lemma move_to_converted_point_witness :
  move_to_absolute 2047 2047 (mkPort [] [] [])
  = send_ms_abs_data MouseButton_None 2047 2047 0 (mkPort [] [] [])
  /\ exists xl xh yl yh,
      written (snd (move_to_absolute 2047 2047 (mkPort [] [] [])))
      = [] ++ [make_frame DEVICE_ADDR x04 [x02; x00; xl; xh; yl; yh; x00]]
      /\ #xl + 256 * #xh = 2047 /\ #yl + 256 * #yh = 2047.
Proof.
  apply (move_to_converted_point 1920 1080 3840 2160 2047 2047 (mkPort [] [] [])).
  - lia.
  - lia.
  - vm_compute. reflexivity.
Defined.
